(** * spectre-core: the batch registry and the date-partitioned paths

    A shallow embedding of
      - [spectre_core/config/_paths.py]    (date-partitioned directories),
      - [spectre_core/batches/_batches.py] (the [Batches] registry),
    together with the few Python built-ins they rely on
    ([str.split], [os.path.splitext], [os.path.join], list indexing,
    insertion-ordered dictionaries, [sorted]).

    Python exceptions are modelled by an error monad; the registry object is
    a record threaded explicitly through the methods which mutate it. *)

From Stdlib Require Import ZArith List String Ascii Bool Lia.
From Stdlib Require Import Sorted Permutation DecimalString.
Import ListNotations.

Local Open Scope string_scope.
Local Open Scope Z_scope.

(* ================================================================== *)
(** * Python built-ins                                                 *)
(* ================================================================== *)

Module Py.

(** The exception classes which the embedded code raises, with their
    messages. *)
Inductive exn : Type :=
| ValueError (msg : string)
| IndexError (msg : string)
| BatchNotFoundError (msg : string)
| SpectrogramNotFoundError (msg : string).

(** A computation either returns or raises. *)
Inductive result (A : Type) : Type :=
| Ok (a : A)
| Raise (e : exn).

Arguments Ok {A} a.
Arguments Raise {A} e.

Definition bind {A B : Type} (c : result A) (k : A -> result B) : result B :=
  match c with
  | Ok a => k a
  | Raise e => Raise e
  end.

Definition is_ok {A : Type} (c : result A) : bool :=
  match c with
  | Ok _ => true
  | Raise _ => false
  end.

(** [mapM f l]: run [f] on the elements from left to right, stop at the
    first exception. *)
Fixpoint mapM {A B : Type} (f : A -> result B) (l : list A) : result (list B) :=
  match l with
  | [] => Ok []
  | x :: l' =>
      bind (f x) (fun y => bind (mapM f l') (fun ys => Ok (y :: ys)))
  end.

(** Truth value of an [Optional[int]]: [None] and [0] are falsy. *)
Definition truthy (o : option Z) : bool :=
  match o with
  | None => false
  | Some z => negb (z =? 0)
  end.

(** [str(n)] for an [int]. *)
Definition str_of_int (z : Z) : string :=
  let digits := NilZero.string_of_uint (N.to_uint (Z.abs_N z)) in
  if z <? 0 then "-" ++ digits else digits.

Fixpoint zeros (n : nat) : string :=
  match n with
  | O => ""
  | S n' => String "0" (zeros n')
  end.

(** [f"{z:0w}"]: sign-aware zero padding to a minimal width [w]. *)
Definition format_zero_pad (w : nat) (z : Z) : string :=
  let digits := NilZero.string_of_uint (N.to_uint (Z.abs_N z)) in
  let sign := if z <? 0 then "-" else "" in
  sign ++ zeros (w - (length sign + length digits)) ++ digits.

(** [s.rfind(c)] for a one-character [c]: the highest index, or [-1]. *)
Fixpoint rfind_from (c : ascii) (s : string) (i : Z) : Z :=
  match s with
  | EmptyString => -1
  | String a s' =>
      let r := rfind_from c s' (i + 1) in
      if 0 <=? r then r else if Ascii.eqb a c then i else -1
  end.

Definition rfind (c : ascii) (s : string) : Z := rfind_from c s 0.

(** The slices [s[:i]] and [s[i:]] for [0 <= i]. *)
Definition slice_to (s : string) (i : Z) : string :=
  substring 0 (Z.to_nat i) s.

Definition slice_from (s : string) (i : Z) : string :=
  substring (Z.to_nat i) (length s - Z.to_nat i) s.

Definition startswith (s p : string) : bool := prefix p s.

Fixpoint endswith_char (s : string) (c : ascii) : bool :=
  match s with
  | EmptyString => false
  | String a EmptyString => Ascii.eqb a c
  | String _ s' => endswith_char s' c
  end.

(** [posixpath.splitext]: split at the last dot of the last path component,
    unless that component consists of leading dots only up to there.  The
    [while] loop of [genericpath._splitext] looks for a character other than
    a dot in the positions [sepIndex + 1 .. dotIndex - 1]. *)
Definition splitext (p : string) : string * string :=
  let sepIndex := rfind "/" p in
  let dotIndex := rfind "." p in
  if sepIndex <? dotIndex then
    if existsb (fun k => negb (substring k 1 p =? ".")%string)
               (seq (Z.to_nat (sepIndex + 1)) (Z.to_nat (dotIndex - sepIndex - 1)))
    then (slice_to p dotIndex, slice_from p dotIndex)
    else (p, "")
  else (p, "").

(** [s.split(sep, 1)] for a one-character separator: one or two pieces. *)
Fixpoint split_once (sep : ascii) (s : string) : list string :=
  match s with
  | EmptyString => [""]
  | String a s' =>
      if Ascii.eqb a sep then [""; s']
      else match split_once sep s' with
           | h :: t => String a h :: t
           | [] => [String a ""]
           end
  end.

(** The tuple assignment [x, y = l]. *)
Definition unpack2 (l : list string) : result (string * string) :=
  match l with
  | [x; y] => Ok (x, y)
  | _ :: _ :: _ :: _ => Raise (ValueError "too many values to unpack (expected 2)")
  | _ =>
      Raise (ValueError ("not enough values to unpack (expected 2, got "
                           ++ str_of_int (Z.of_nat (List.length l)) ++ ")"))
  end.

(** [posixpath.join(a, *p)]. *)
Fixpoint join (path : string) (p : list string) : string :=
  match p with
  | [] => path
  | b :: p' =>
      let path' :=
        if startswith b "/" || (path =? "")%string then b
        else if endswith_char path "/" then path ++ b
        else path ++ "/" ++ b in
      join path' p'
  end.

(** [l[i]] on a list: negative indices count from the end. *)
Definition getitem {A : Type} (l : list A) (i : Z) : result A :=
  let n := Z.of_nat (List.length l) in
  let j := if i <? 0 then i + n else i in
  if (0 <=? j) && (j <? n) then
    match nth_error l (Z.to_nat j) with
    | Some x => Ok x
    | None => Raise (IndexError "list index out of range")
    end
  else Raise (IndexError "list index out of range").

(** An [OrderedDict] with string keys: the items in insertion order. *)
Definition odict (V : Type) : Type := list (string * V).

Definition keys {V : Type} (d : odict V) : list string := map fst d.
Definition values {V : Type} (d : odict V) : list V := map snd d.

(** [d[k]], with [None] standing for the [KeyError]. *)
Fixpoint lookup {V : Type} (d : odict V) (k : string) : option V :=
  match d with
  | [] => None
  | (k', v) :: d' => if (k' =? k)%string then Some v else lookup d' k
  end.

(** [d[k] = v]: an existing key keeps its position, a new one goes last. *)
Fixpoint setitem {V : Type} (d : odict V) (k : string) (v : V) : odict V :=
  match d with
  | [] => [(k, v)]
  | (k', v') :: d' =>
      if (k' =? k)%string then (k', v) :: d' else (k', v') :: setitem d' k v
  end.

(** [sorted(d.items())].  The items of a dictionary have pairwise different
    keys, so the comparison of two items is decided by their keys and never
    reaches the values.  [sorted] is stable, and so is this insertion sort:
    the head of the list goes before the items of the tail with an equal
    key. *)
Fixpoint insert_item {V : Type} (x : string * V) (l : list (string * V))
  : list (string * V) :=
  match l with
  | [] => [x]
  | y :: l' =>
      if (fst y <? fst x)%string then y :: insert_item x l' else x :: y :: l'
  end.

Fixpoint sorted_items {V : Type} (l : list (string * V)) : list (string * V) :=
  match l with
  | [] => []
  | x :: l' => insert_item x (sorted_items l')
  end.

(** [sorted(l)] on a list of strings. *)
Fixpoint insert_str (x : string) (l : list string) : list string :=
  match l with
  | [] => [x]
  | y :: l' => if (y <? x)%string then y :: insert_str x l' else x :: y :: l'
  end.

Fixpoint sorted_strs (l : list string) : list string :=
  match l with
  | [] => []
  | x :: l' => insert_str x (sorted_strs l')
  end.

End Py.

Import Py.

Notation "x <- c ;; k" := (Py.bind c (fun x => k))
  (at level 61, c at next level, right associativity).

(* ================================================================== *)
(** * [spectre_core/config/_paths.py]                                  *)
(* ================================================================== *)

(** The process environment: the value of [SPECTRE_DATA_DIR_PATH], which the
    module requires to be set when it is imported. *)
Class Environ : Type := { SPECTRE_DATA_DIR_PATH : string }.

Section Paths.

Context {E : Environ}.

Definition _SPECTRE_DATA_DIR_PATH : string := SPECTRE_DATA_DIR_PATH.

Definition _BATCHES_DIR_PATH : string := join _SPECTRE_DATA_DIR_PATH ["batches"].
Definition _LOGS_DIR_PATH : string := join _SPECTRE_DATA_DIR_PATH ["logs"].
Definition _CONFIGS_DIR_PATH : string := join _SPECTRE_DATA_DIR_PATH ["configs"].

(** [if x: date_dir_components.append(f"{x:0w}")]. *)
Definition date_dir_component (w : nat) (x : option Z) : list string :=
  match x with
  | Some z => if truthy x then [format_zero_pad w z] else []
  | None => []
  end.

Definition _get_date_based_dir_path
  (base_dir : string) (year month day : option Z) : result string :=
  if truthy day && negb (truthy year && truthy month) then
    Raise (ValueError "A day requires both a month and a year")
  else if truthy month && negb (truthy year) then
    Raise (ValueError "A month requires a year")
  else
    let date_dir_components :=
      (date_dir_component 4 year ++ date_dir_component 2 month
         ++ date_dir_component 2 day)%list in
    Ok (join base_dir date_dir_components).

Definition get_batches_dir_path (year month day : option Z) : result string :=
  _get_date_based_dir_path _BATCHES_DIR_PATH year month day.

Definition get_logs_dir_path (year month day : option Z) : result string :=
  _get_date_based_dir_path _LOGS_DIR_PATH year month day.

End Paths.

(** The specification speaks of components which are present or absent, and of the
    dependency "a day requires a month and a year, a month requires a year". *)
Definition present (x : option Z) : bool :=
  match x with
  | Some _ => true
  | None => false
  end.

Definition date_dependency (has_year has_month has_day : bool) : bool :=
  implb has_day has_month && implb has_month has_year.

(* ================================================================== *)
(** * [spectre_core/batches/_batches.py]                               *)
(* ================================================================== *)

(** Modelled from the spec: [BaseBatch] ([spectre_core/batches/_base.py]) is
    missing from the sources.  A batch is identified by its start time and
    its tag, and [batch_cls(start_time, tag)] builds the handle. *)
Record Batch : Type := batch_cls { b_start_time : string; b_tag : string }.

(** The interface of [spectre_core.spectrograms] and of [datetime], which the
    registry calls and which are not part of the sources: a spectrogram
    exposes its time axis ([datetimes], instants counted on an integer
    scale); [strptime s] stands for
    [datetime.strptime(s, TimeFormats.DATETIME)]; [time_chop] and
    [join_spectrograms] may raise. *)
Class SpectrogramLib : Type := {
  Spectrogram : Type;
  datetimes : Spectrogram -> list Z;
  strptime : string -> result Z;
  time_chop : Spectrogram -> string -> string -> result Spectrogram;
  join_spectrograms : list Spectrogram -> result Spectrogram
}.

Section Registry.

Context {E : Environ} {L : SpectrogramLib}.

(** The file system, as far as the registry looks at it: the file names
    which [os.walk] yields below a directory, in the order of the walk,
    and the spectrogram file of a batch ([None] when
    [batch.spectrogram_file.exists] is false, otherwise what
    [batch.read_spectrogram()] returns). *)
Record FileSystem : Type := {
  walk_files : string -> list string;
  spectrogram_file : Batch -> option Spectrogram
}.

(** The attributes of a [Batches] object. *)
Record Batches : Type := {
  _tag : string;
  _year : option Z;
  _month : option Z;
  _day : option Z;
  _batch_map : odict Batch
}.

Definition set_batch_map (self : Batches) (m : odict Batch) : Batches :=
  {| _tag := _tag self; _year := _year self; _month := _month self;
     _day := _day self; _batch_map := m |}.

Definition batches_dir_path (self : Batches) : result string :=
  get_batches_dir_path (_year self) (_month self) (_day self).

Definition batch_list (self : Batches) : list Batch := values (_batch_map self).

Definition start_times (self : Batches) : list string := keys (_batch_map self).

Definition num_batches (self : Batches) : Z :=
  Z.of_nat (List.length (batch_list self)).

(** The [for] loop of [update]: the dictionary built so far, and whether
    the loop ran to its end. *)
Fixpoint update_loop (tag : string) (batch_file_names : list string)
  (m : odict Batch) : odict Batch * result unit :=
  match batch_file_names with
  | [] => (m, Ok tt)
  | batch_file_name :: rest =>
      let batch_name := fst (splitext batch_file_name) in
      match unpack2 (split_once "_" batch_name) with
      | Raise e => (m, Raise e)
      | Ok (start_time, tag') =>
          if (tag' =? tag)%string
          then update_loop tag rest (setitem m start_time (batch_cls start_time tag'))
          else update_loop tag rest m
      end
  end.

(** [update]: the object after the call, and the outcome of the call. *)
Definition update (fs : FileSystem) (self : Batches) : Batches * result unit :=
  let self := set_batch_map self [] in
  match batches_dir_path self with
  | Raise e => (self, Raise e)
  | Ok dir =>
      match update_loop (_tag self) (walk_files fs dir) (_batch_map self) with
      | (m, Raise e) => (set_batch_map self m, Raise e)
      | (m, Ok _) => (set_batch_map self (sorted_items m), Ok tt)
      end
  end.

Definition set_date (fs : FileSystem) (self : Batches)
  (year month day : option Z) : Batches * result unit :=
  update fs {| _tag := _tag self; _year := year; _month := month;
               _day := day; _batch_map := _batch_map self |}.

Definition __init__ (fs : FileSystem) (tag : string)
  (year month day : option Z) : Batches * result unit :=
  set_date fs {| _tag := tag; _year := None; _month := None; _day := None;
                 _batch_map := [] |} year month day.

Definition __iter__ (self : Batches) : list Batch := batch_list self.

Definition __len__ (self : Batches) : Z := num_batches self.

Definition _get_from_start_time (self : Batches) (start_time : string)
  : result Batch :=
  match lookup (_batch_map self) start_time with
  | Some batch => Ok batch
  | None =>
      dir <- batches_dir_path self ;;
      Raise (BatchNotFoundError
               ("Batch with start time " ++ start_time
                  ++ " could not be found within " ++ dir))
  end.

Definition _get_from_index (self : Batches) (index : Z) : result Batch :=
  if num_batches self =? 0 then
    Raise (BatchNotFoundError "No batches are available")
  else if index >? num_batches self then
    Raise (IndexError
             ("Index '" ++ str_of_int index
                ++ "' is greater than the number of batches '"
                ++ str_of_int (num_batches self) ++ "'"))
  else getitem (batch_list self) index.

Inductive subscript : Type :=
| SubStr (s : string)
| SubInt (i : Z).

Definition __getitem__ (self : Batches) (sub : subscript) : result Batch :=
  match sub with
  | SubStr s => _get_from_start_time self s
  | SubInt i => _get_from_index self i
  end.

(** The [for] loop of [get_spectrogram_from_range]. *)
Fixpoint range_loop (fs : FileSystem) (start_time end_time : string)
  (start_datetime end_datetime : Z) (batches : list Batch)
  (spectrograms : list Spectrogram) : result (list Spectrogram) :=
  match batches with
  | [] => Ok spectrograms
  | batch :: rest =>
      match spectrogram_file fs batch with
      | None =>
          range_loop fs start_time end_time start_datetime end_datetime
            rest spectrograms
      | Some spectrogram =>
          lower_bound <- getitem (datetimes spectrogram) 0 ;;
          upper_bound <- getitem (datetimes spectrogram) (-1) ;;
          if (start_datetime <=? upper_bound) && (lower_bound <=? end_datetime)
          then
            chopped <- time_chop spectrogram start_time end_time ;;
            range_loop fs start_time end_time start_datetime end_datetime
              rest (spectrograms ++ [chopped])%list
          else
            range_loop fs start_time end_time start_datetime end_datetime
              rest spectrograms
      end
  end.

Definition get_spectrogram_from_range (fs : FileSystem) (self : Batches)
  (start_time end_time : string) : result Spectrogram :=
  start_datetime <- strptime start_time ;;
  end_datetime <- strptime end_time ;;
  spectrograms <- range_loop fs start_time end_time start_datetime
                    end_datetime (__iter__ self) [] ;;
  match spectrograms with
  | [] =>
      Raise (SpectrogramNotFoundError
               "No spectrogram data found for the given time range")
  | _ :: _ => join_spectrograms spectrograms
  end.

End Registry.

(* ================================================================== *)
(** * The vocabulary of the specification                              *)
(* ================================================================== *)

(** ["_" in s]. *)
Fixpoint contains_char (c : ascii) (s : string) : bool :=
  match s with
  | EmptyString => false
  | String a s' => Ascii.eqb a c || contains_char c s'
  end.

(** The batch name of a file: its name without the extension. *)
Definition batch_name_of (batch_file_name : string) : string :=
  fst (splitext batch_file_name).

(** The naming scheme [<start_time>_<tag>]: the two parts of a batch name,
    cut at its first underscore. *)
Definition parse_batch_name (batch_name : string) : option (string * string) :=
  match split_once "_" batch_name with
  | [start_time; tag] => Some (start_time, tag)
  | _ => None
  end.

(** The timestamps of the discovered files which carry the tag, one per
    file and in the order of discovery. *)
Definition discovered_start_times (tag : string) (batch_file_names : list string)
  : list string :=
  flat_map (fun f => match parse_batch_name (batch_name_of f) with
                     | Some (start_time, tag') =>
                         if (tag' =? tag)%string then [start_time] else []
                     | None => []
                     end) batch_file_names.

(** Strictly increasing lists of timestamps, in the order of the strings. *)
Definition strictly_increasing (l : list string) : Prop :=
  StronglySorted (fun a b => (a <? b)%string = true) l.

Section SpecVocabulary.

Context {E : Environ} {L : SpectrogramLib}.

(** The time range [first, last] of a spectrogram with a non-empty time
    axis. *)
Definition time_range (s : Spectrogram) : option (Z * Z) :=
  match datetimes s with
  | [] => None
  | first :: rest => Some (first, last rest first)
  end.

(** The overlap test of the specification, with inclusive bounds:
    [start <= batch.last && batch.first <= end]. *)
Definition overlaps (start_datetime end_datetime : Z) (range : Z * Z) : bool :=
  (start_datetime <=? snd range) && (fst range <=? end_datetime).

(** What one batch contributes to a range query: its spectrogram, when the
    spectrogram file exists and its time range passes the overlap test. *)
Definition contribution (fs : FileSystem) (start_datetime end_datetime : Z)
  (batch : Batch) : list Spectrogram :=
  match spectrogram_file fs batch with
  | None => []
  | Some s =>
      match time_range s with
      | Some range =>
          if overlaps start_datetime end_datetime range then [s] else []
      | None => []
      end
  end.

(** The spectrograms of the overlapping batches, in the order of the
    registry. *)
Definition overlapping (fs : FileSystem) (start_datetime end_datetime : Z)
  (batches : list Batch) : list Spectrogram :=
  flat_map (contribution fs start_datetime end_datetime) batches.

(** The specification of a range query: clip the overlapping spectrograms to
    the window, join the pieces, and fail when there is none. *)
Definition range_query_spec (fs : FileSystem) (batches : list Batch)
  (start_time end_time : string) (start_datetime end_datetime : Z)
  : result Spectrogram :=
  pieces <- mapM (fun s => time_chop s start_time end_time)
              (overlapping fs start_datetime end_datetime batches) ;;
  match pieces with
  | [] =>
      Raise (SpectrogramNotFoundError
               "No spectrogram data found for the given time range")
  | _ :: _ => join_spectrograms pieces
  end.

(** Every spectrogram file of the listed batches has at least one
    timestamp. *)
Definition nonempty_time_axes (fs : FileSystem) (batches : list Batch) : Prop :=
  forall b s, In b batches -> spectrogram_file fs b = Some s ->
              datetimes s <> [].

End SpecVocabulary.

(** The date-partitioned layout [root/YYYY/MM/DD]: what is appended to
    the root for the components which count ([None] and [0] do not). *)
Definition date_suffix_part (w : nat) (x : option Z) : string :=
  match x with
  | Some z => if z =? 0 then "" else "/" ++ format_zero_pad w z
  | None => ""
  end.

Definition date_suffix (year month day : option Z) : string :=
  date_suffix_part 4 year ++ date_suffix_part 2 month ++ date_suffix_part 2 day.

(* ================================================================== *)
(** * A concrete world, on which the registry is run                   *)
(* ================================================================== *)

Module Demo.

Definition environ : Environ := {| SPECTRE_DATA_DIR_PATH := "/data" |}.

(** The number which the decimal digits of a string spell, the other
    characters left out: on the fixed-width datetime format this is
    monotone in the instant. *)
Fixpoint digits_value_from (acc : Z) (s : string) : Z :=
  match s with
  | EmptyString => acc
  | String a s' =>
      let n := Z.of_N (N_of_ascii a) in
      if (48 <=? n) && (n <=? 57)
      then digits_value_from (10 * acc + (n - 48)) s'
      else digits_value_from acc s'
  end.

Definition digits_value (s : string) : Z := digits_value_from 0 s.

(** Modelled from the spec: [spectre_core.spectrograms] is missing from the
    sources.  A spectrogram is reduced to its time axis; Clip keeps the
    timestamps within the inclusive window, Join concatenates along the time
    axis in list order. *)
Definition lib : SpectrogramLib := {|
  Spectrogram := list Z;
  datetimes := fun s => s;
  strptime := fun s => Ok (digits_value s);
  time_chop := fun s start_time end_time =>
    Ok (filter (fun t => (digits_value start_time <=? t)
                           && (t <=? digits_value end_time)) s);
  join_spectrograms := fun l => Ok (List.concat l)
|}.

Definition t1 : string := "2024-01-01T00:00:00".
Definition t2 : string := "2024-01-01T00:00:10".
Definition t3 : string := "2024-01-01T00:00:20".

(** Three batches of the tag [obs], found out of order, each with two
    files; a batch of another tag; the spectrogram of the second batch has
    not been written yet. *)
Definition fs : @FileSystem lib :=
  @Build_FileSystem lib
  (fun dir =>
    if (dir =? "/data/batches")%string then
      [ t3 ++ "_obs.fits"; t1 ++ "_obs.bin"; t1 ++ "_obs.fits";
        t2 ++ "_obs.bin"; t3 ++ "_obs.bin"; t1 ++ "_other.fits" ]
    else [])
  (fun b =>
    if (b_start_time b =? t1)%string then
      Some [20240101000000; 20240101000005]
    else if (b_start_time b =? t3)%string then
      Some [20240101000020]
    else None).

(** The same directory with a foreign file in it. *)
Definition fs_foreign : @FileSystem lib :=
  @Build_FileSystem lib
  (fun dir =>
    if (dir =? "/data/batches")%string then
      [ t1 ++ "_obs.fits"; "README.md"; t2 ++ "_obs.fits" ]
    else [])
  (fun _ => None).

(** A file per batch: the timestamps are pairwise different. *)
Definition fs_distinct : @FileSystem lib :=
  @Build_FileSystem lib
  (fun dir =>
    if (dir =? "/data/batches")%string then
      [ t3 ++ "_obs.fits"; t1 ++ "_obs.fits"; t2 ++ "_obs.fits" ]
    else [])
  (fun _ => None).

Definition blank : Batches :=
  {| _tag := "obs"; _year := None; _month := None; _day := None;
     _batch_map := [] |}.

(** The registry [Batches("obs", batch_cls)] over [fs]. *)
Definition registry : Batches := fst (@__init__ environ lib fs "obs" None None None).

(** A registry of a single batch. *)
Definition single : Batches :=
  {| _tag := "obs"; _year := None; _month := None; _day := None;
     _batch_map := [(t1, batch_cls t1 "obs")] |}.

End Demo.

(* ================================================================== *)
(** * More vocabulary: file names, tags, time axes                     *)
(* ================================================================== *)

(** A file name of the shape [<start_time>_<tag>.<ext>]. *)
Definition batch_file_name (start_time tag ext : string) : string :=
  start_time ++ "_" ++ tag ++ "." ++ ext.

(** The files which [update] retains for a tag: those whose batch name,
    cut at its first underscore, ends in the tag. *)
Definition has_tag (tag : string) (batch_file_name : string) : bool :=
  match parse_batch_name (batch_name_of batch_file_name) with
  | Some (_, tag') => (tag' =? tag)%string
  | None => false
  end.

(** A time axis in increasing order. *)
Definition increasing_time_axis (axis : list Z) : Prop :=
  StronglySorted Z.le axis.

(** The separator-terminated prefix which [os.path.join] puts in front of a
    relative component appended to [path]. *)
Definition join_prefix (path : string) : string :=
  if (path =? "")%string then ""
  else if endswith_char path "/" then path
  else path ++ "/".

Module DemoMore.

(** The directory of [Demo.fs_distinct], walked in another order. *)
Definition fs_reordered : @FileSystem Demo.lib :=
  @Build_FileSystem Demo.lib
  (fun dir =>
    if (dir =? "/data/batches")%string then
      [ Demo.t1 ++ "_obs.fits"; Demo.t3 ++ "_obs.fits"; Demo.t2 ++ "_obs.fits" ]
    else [])
  (fun _ => None).

(** The directory of [Demo.fs] without the file of the other tag. *)
Definition fs_obs_only : @FileSystem Demo.lib :=
  @Build_FileSystem Demo.lib
  (fun dir =>
    if (dir =? "/data/batches")%string then
      [ Demo.t3 ++ "_obs.fits"; Demo.t1 ++ "_obs.bin"; Demo.t1 ++ "_obs.fits";
        Demo.t2 ++ "_obs.bin"; Demo.t3 ++ "_obs.bin" ]
    else [])
  (fun _ => None).

End DemoMore.

(* ================================================================== *)
(** * Facts about the built-ins                                        *)
(* ================================================================== *)

(** ** The order of strings *)

Lemma ascii_compare_refl (a : ascii) : Ascii.compare a a = Eq.
Proof. unfold Ascii.compare. apply N.compare_refl. Qed.

Lemma ascii_compare_lt_trans (a b c : ascii) :
  Ascii.compare a b = Lt -> Ascii.compare b c = Lt -> Ascii.compare a c = Lt.
Proof.
  unfold Ascii.compare. rewrite !N.compare_lt_iff. apply N.lt_trans.
Qed.

Lemma string_compare_refl (s : string) : String.compare s s = Eq.
Proof.
  induction s as [|a s IH]; simpl; [reflexivity|].
  now rewrite ascii_compare_refl.
Qed.

Lemma string_compare_lt_trans (s1 s2 s3 : string) :
  String.compare s1 s2 = Lt -> String.compare s2 s3 = Lt ->
  String.compare s1 s3 = Lt.
Proof.
  revert s2 s3.
  induction s1 as [|a s1 IH]; intros [|b s2] [|c s3]; simpl;
    try congruence.
  destruct (Ascii.compare a b) eqn:Hab; try discriminate;
    destruct (Ascii.compare b c) eqn:Hbc; try discriminate; intros H12 H23.
  - apply Ascii.compare_eq_iff in Hab, Hbc. subst.
    rewrite ascii_compare_refl. eauto.
  - apply Ascii.compare_eq_iff in Hab. subst. now rewrite Hbc.
  - apply Ascii.compare_eq_iff in Hbc. subst. now rewrite Hab.
  - now rewrite (ascii_compare_lt_trans _ _ _ Hab Hbc).
Qed.

Lemma ltb_irrefl (s : string) : (s <? s)%string = false.
Proof. unfold String.ltb. now rewrite string_compare_refl. Qed.

Lemma ltb_trans (s1 s2 s3 : string) :
  (s1 <? s2)%string = true -> (s2 <? s3)%string = true ->
  (s1 <? s3)%string = true.
Proof.
  unfold String.ltb.
  destruct (String.compare s1 s2) eqn:H12; try discriminate.
  destruct (String.compare s2 s3) eqn:H23; try discriminate.
  now rewrite (string_compare_lt_trans _ _ _ H12 H23).
Qed.

Lemma ltb_connected (s1 s2 : string) :
  (s1 <? s2)%string = false -> s1 <> s2 -> (s2 <? s1)%string = true.
Proof.
  unfold String.ltb. rewrite (String.compare_antisym s2 s1).
  destruct (String.compare s1 s2) eqn:H; simpl; try congruence.
  intros _ Hne. apply String.compare_eq_iff in H. contradiction.
Qed.

Lemma ltb_leb (s1 s2 : string) :
  (s1 <? s2)%string = true -> (s1 <=? s2)%string = true.
Proof.
  unfold String.ltb, String.leb. now destruct (String.compare s1 s2).
Qed.

Lemma leb_refl (s : string) : (s <=? s)%string = true.
Proof. unfold String.leb. now rewrite string_compare_refl. Qed.

(** ** Sorting *)

Lemma insert_str_in (x z : string) (l : list string) :
  In z (insert_str x l) <-> z = x \/ In z l.
Proof.
  induction l as [|y l IH]; simpl.
  - intuition.
  - destruct (y <? x)%string; simpl; rewrite ?IH; intuition.
Qed.

Lemma insert_str_strict (x : string) (l : list string) :
  ~ In x l -> strictly_increasing l -> strictly_increasing (insert_str x l).
Proof.
  unfold strictly_increasing.
  induction l as [|y l IH]; simpl; intros Hnin Hs.
  - constructor; constructor.
  - inversion Hs as [|? ? Hs' Hall]; subst.
    destruct (y <? x)%string eqn:Hyx.
    + constructor.
      * apply IH; [tauto | assumption].
      * apply Forall_forall. intros z Hz. apply insert_str_in in Hz.
        destruct Hz as [->|Hz]; [assumption|].
        rewrite Forall_forall in Hall. now apply Hall.
    + assert (Hxy : (x <? y)%string = true).
      { apply ltb_connected; [assumption|]. intros ->. tauto. }
      constructor; [assumption|].
      constructor; [assumption|].
      rewrite Forall_forall in *. intros z Hz.
      eapply ltb_trans; [exact Hxy | now apply Hall].
Qed.

Lemma sorted_strs_in (z : string) (l : list string) :
  In z (sorted_strs l) <-> In z l.
Proof.
  induction l as [|x l IH]; simpl; [tauto|].
  rewrite insert_str_in, IH. intuition.
Qed.

Lemma sorted_strs_strict (l : list string) :
  NoDup l -> strictly_increasing (sorted_strs l).
Proof.
  induction 1 as [|x l Hnin Hnd IH]; simpl.
  - constructor.
  - apply insert_str_strict; [|assumption].
    now rewrite sorted_strs_in.
Qed.

Lemma strictly_increasing_NoDup (l : list string) :
  strictly_increasing l -> NoDup l.
Proof.
  induction 1 as [|x l Hs IH Hall]; constructor; [|assumption].
  intros Hin. rewrite Forall_forall in Hall.
  specialize (Hall _ Hin). now rewrite ltb_irrefl in Hall.
Qed.

Lemma keys_insert_item {V : Type} (x : string * V) (l : list (string * V)) :
  keys (insert_item x l) = insert_str (fst x) (keys l).
Proof.
  unfold keys. induction l as [|y l IH]; simpl; [reflexivity|].
  destruct (fst y <? fst x)%string; simpl; now rewrite ?IH.
Qed.

Lemma keys_sorted_items {V : Type} (l : list (string * V)) :
  keys (sorted_items l) = sorted_strs (keys l).
Proof.
  induction l as [|x l IH]; simpl; [reflexivity|].
  now rewrite keys_insert_item, IH.
Qed.

Lemma insert_item_perm {V : Type} (x : string * V) (l : list (string * V)) :
  Permutation (insert_item x l) (x :: l).
Proof.
  induction l as [|y l IH]; simpl; [reflexivity|].
  destruct (fst y <? fst x)%string; [|reflexivity].
  rewrite IH. apply perm_swap.
Qed.

Lemma sorted_items_perm {V : Type} (l : list (string * V)) :
  Permutation (sorted_items l) l.
Proof.
  induction l as [|x l IH]; simpl; [reflexivity|].
  rewrite insert_item_perm. now constructor.
Qed.

(** ** Dictionaries *)

Lemma lookup_none {V : Type} (d : odict V) (k : string) :
  lookup d k = None <-> ~ In k (keys d).
Proof.
  induction d as [|[k' v] d IH]; simpl; [tauto|].
  destruct (String.eqb_spec k' k) as [->|Hne].
  - split; [discriminate | tauto].
  - rewrite IH. tauto.
Qed.

Lemma lookup_in {V : Type} (d : odict V) (k : string) (v : V) :
  NoDup (keys d) -> In (k, v) d -> lookup d k = Some v.
Proof.
  induction d as [|[k' v'] d IH]; simpl; [tauto|].
  intros Hnd [Heq|Hin].
  - inversion Heq; subst. now rewrite String.eqb_refl.
  - inversion Hnd as [|? ? Hnin Hnd']; subst.
    destruct (String.eqb_spec k' k) as [->|Hne].
    + exfalso. apply Hnin. unfold keys.
      change k with (fst (k, v)). now apply in_map.
    + now apply IH.
Qed.

Lemma lookup_some_in {V : Type} (d : odict V) (k : string) (v : V) :
  lookup d k = Some v -> In (k, v) d.
Proof.
  induction d as [|[k' v'] d IH]; simpl; [discriminate|].
  destruct (String.eqb_spec k' k) as [->|Hne].
  - intros [= ->]. now left.
  - intros H. right. now apply IH.
Qed.

Lemma keys_setitem_old {V : Type} (d : odict V) (k : string) (v : V) :
  In k (keys d) -> keys (setitem d k v) = keys d.
Proof.
  induction d as [|[k' v'] d IH]; simpl; [tauto|].
  intros Hin. destruct (String.eqb_spec k' k) as [->|Hne]; simpl.
  - reflexivity.
  - f_equal. apply IH. destruct Hin; [contradiction | assumption].
Qed.

Lemma keys_setitem_new {V : Type} (d : odict V) (k : string) (v : V) :
  ~ In k (keys d) -> keys (setitem d k v) = (keys d ++ [k])%list.
Proof.
  induction d as [|[k' v'] d IH]; simpl; [reflexivity|].
  intros Hnin. destruct (String.eqb_spec k' k) as [->|Hne]; simpl.
  - tauto.
  - f_equal. apply IH. tauto.
Qed.

Lemma setitem_in {V : Type} (d : odict V) (k : string) (v : V) (x : string * V) :
  In x (setitem d k v) -> x = (k, v) \/ In x d.
Proof.
  induction d as [|[k' v'] d IH]; simpl.
  - intros [<-|[]]. now left.
  - destruct (String.eqb_spec k' k) as [->|Hne]; simpl.
    + intros [<-|Hin]; [now left | now right; right].
    + intros [<-|Hin]; [now right; left|].
      destruct (IH Hin); [now left | now right; right].
Qed.

Lemma NoDup_snoc {A : Type} (l : list A) (x : A) :
  NoDup l -> ~ In x l -> NoDup (l ++ [x]).
Proof.
  intros Hnd Hnin. apply NoDup_rev in Hnd.
  rewrite <- (rev_involutive (l ++ [x])%list). apply NoDup_rev.
  rewrite rev_app_distr. simpl. constructor; [|assumption].
  now rewrite <- in_rev.
Qed.

Lemma keys_setitem_NoDup {V : Type} (d : odict V) (k : string) (v : V) :
  NoDup (keys d) -> NoDup (keys (setitem d k v)).
Proof.
  intros Hnd. destruct (in_dec string_dec k (keys d)) as [Hin|Hnin].
  - now rewrite keys_setitem_old.
  - rewrite keys_setitem_new by assumption. now apply NoDup_snoc.
Qed.

(** ** Splitting a batch name *)

Lemma split_once_without (c : ascii) (s : string) :
  contains_char c s = false -> split_once c s = [s].
Proof.
  induction s as [|a s IH]; simpl; [reflexivity|].
  destruct (Ascii.eqb a c); simpl; [discriminate|].
  intros H. now rewrite (IH H).
Qed.

Lemma split_once_with (c : ascii) (s : string) :
  contains_char c s = true -> exists x y, split_once c s = [x; y].
Proof.
  induction s as [|a s IH]; simpl; [discriminate|].
  destruct (Ascii.eqb a c); simpl.
  - intros _. now exists "", s.
  - intros H. destruct (IH H) as (x & y & ->). now exists (String a x), y.
Qed.

(** ** List indexing *)

Lemma getitem_nonneg {A : Type} (l : list A) (i : Z) :
  0 <= i < Z.of_nat (List.length l) ->
  exists x, nth_error l (Z.to_nat i) = Some x /\ getitem l i = Ok x.
Proof.
  intros Hi. unfold getitem.
  destruct (Z.ltb_spec i 0); [lia|].
  destruct (Z.leb_spec 0 i); [|lia].
  destruct (Z.ltb_spec i (Z.of_nat (List.length l))); [|lia]. simpl.
  destruct (nth_error l (Z.to_nat i)) as [x|] eqn:Hn.
  - now exists x.
  - apply nth_error_None in Hn. lia.
Qed.

Lemma getitem_negative {A : Type} (l : list A) (i : Z) :
  - Z.of_nat (List.length l) <= i <= -1 ->
  exists x, nth_error l (Z.to_nat (Z.of_nat (List.length l) + i)) = Some x
            /\ getitem l i = Ok x.
Proof.
  intros Hi. unfold getitem.
  destruct (Z.ltb_spec i 0); [|lia].
  destruct (Z.leb_spec 0 (i + Z.of_nat (List.length l))); [|lia].
  destruct (Z.ltb_spec (i + Z.of_nat (List.length l)) (Z.of_nat (List.length l)));
    [|lia]. simpl.
  rewrite (Z.add_comm (Z.of_nat (List.length l)) i).
  destruct (nth_error l (Z.to_nat (i + Z.of_nat (List.length l)))) as [x|] eqn:Hn.
  - now exists x.
  - apply nth_error_None in Hn. lia.
Qed.

Lemma getitem_out_of_range {A : Type} (l : list A) (i : Z) :
  i < - Z.of_nat (List.length l) \/ Z.of_nat (List.length l) <= i ->
  getitem l i = Raise (IndexError "list index out of range").
Proof.
  intros Hi. unfold getitem.
  destruct (Z.ltb_spec i 0);
    [destruct (Z.leb_spec 0 (i + Z.of_nat (List.length l)))
    |destruct (Z.leb_spec 0 i)]; simpl; try reflexivity; try lia.
  all: match goal with
       | |- context [?a <? ?b] => destruct (Z.ltb_spec a b)
       end; try reflexivity; lia.
Qed.

(* ================================================================== *)
(** * The rescan of the batches directory                              *)
(* ================================================================== *)

Lemma split_once_shape (c : ascii) (s : string) :
  (contains_char c s = false /\ split_once c s = [s])
  \/ (contains_char c s = true /\ exists x y, split_once c s = [x; y]).
Proof.
  destruct (contains_char c s) eqn:H.
  - right. split; [reflexivity | now apply split_once_with].
  - left. split; [reflexivity | now apply split_once_without].
Qed.

Lemma in_keys_setitem {V : Type} (d : odict V) (k k' : string) (v : V) :
  In k' (keys (setitem d k v)) <-> k' = k \/ In k' (keys d).
Proof.
  destruct (in_dec string_dec k (keys d)) as [Hin|Hnin].
  - rewrite keys_setitem_old by assumption. intuition (subst; assumption).
  - rewrite keys_setitem_new by assumption. rewrite in_app_iff. simpl.
    intuition.
Qed.

(** The loop runs to its end when every batch name has an underscore. *)
Lemma update_loop_ok (tag : string) (names : list string) :
  (forall f, In f names -> contains_char "_" (batch_name_of f) = true) ->
  forall m, snd (update_loop tag names m) = Ok tt.
Proof.
  induction names as [|f names IH]; intros Hall m; simpl; [reflexivity|].
  destruct (split_once_shape "_" (batch_name_of f)) as [[Hc _]|[_ (x & y & Hs)]].
  - rewrite (Hall f (or_introl eq_refl)) in Hc. discriminate.
  - unfold batch_name_of in Hs. rewrite Hs. simpl.
    destruct (y =? tag)%string; apply IH; intros g Hg; apply Hall; now right.
Qed.

(** It stops with the failure of the tuple assignment at the first batch
    name without an underscore. *)
Lemma update_loop_fail (tag : string) (names : list string) :
  (exists f, In f names /\ contains_char "_" (batch_name_of f) = false) ->
  forall m, snd (update_loop tag names m)
            = Raise (ValueError "not enough values to unpack (expected 2, got 1)").
Proof.
  induction names as [|f names IH]; intros (g & Hg & Hc) m; simpl.
  - destruct Hg.
  - destruct (split_once_shape "_" (batch_name_of f)) as [[Hf Hs]|[Hf (x & y & Hs)]];
      unfold batch_name_of in Hs; rewrite Hs; simpl.
    + reflexivity.
    + assert (Hrest : exists f', In f' names
                                 /\ contains_char "_" (batch_name_of f') = false).
      { destruct Hg as [<-|Hg]; [congruence | now exists g]. }
      destruct (y =? tag)%string; now apply IH.
Qed.

Lemma update_loop_outcome (tag : string) (names : list string) (m : odict Batch) :
  snd (update_loop tag names m) = Ok tt
  \/ snd (update_loop tag names m)
     = Raise (ValueError "not enough values to unpack (expected 2, got 1)").
Proof.
  destruct (forallb (fun f => contains_char "_" (batch_name_of f)) names) eqn:H.
  - left. apply update_loop_ok. rewrite forallb_forall in H. exact H.
  - right. apply update_loop_fail.
    destruct (existsb (fun f => negb (contains_char "_" (batch_name_of f))) names)
      eqn:Hex.
    + apply existsb_exists in Hex. destruct Hex as (f & Hf & Hn).
      exists f. split; [assumption|]. now apply negb_true_iff.
    + exfalso. assert (Hall : forallb (fun f => contains_char "_" (batch_name_of f)) names = true).
      { apply forallb_forall. intros f Hf.
        destruct (contains_char "_" (batch_name_of f)) eqn:Hc; [reflexivity|].
        assert (existsb (fun f => negb (contains_char "_" (batch_name_of f))) names
                = true) as Habs.
        { apply existsb_exists. exists f. now rewrite Hc. }
        congruence. }
      congruence.
Qed.

Lemma update_loop_keys_NoDup (tag : string) (names : list string) :
  forall m, NoDup (keys m) -> NoDup (keys (fst (update_loop tag names m))).
Proof.
  induction names as [|f names IH]; intros m Hnd; simpl; [assumption|].
  destruct (unpack2 (split_once "_" (fst (splitext f)))) as [[st tg]|e];
    [|assumption].
  destruct (tg =? tag)%string; apply IH; [|assumption].
  now apply keys_setitem_NoDup.
Qed.

Lemma update_loop_keys_in (tag : string) (names : list string) (k : string) :
  forall m, snd (update_loop tag names m) = Ok tt ->
            (In k (keys (fst (update_loop tag names m)))
             <-> In k (keys m) \/ In k (discovered_start_times tag names)).
Proof.
  induction names as [|f names IH]; intros m; simpl; [tauto|].
  unfold parse_batch_name, batch_name_of.
  destruct (split_once_shape "_" (fst (splitext f))) as [[_ Hs]|[_ (x & y & Hs)]];
    rewrite Hs; simpl; [discriminate|].
  destruct (y =? tag)%string; intros Hok; rewrite (IH _ Hok); simpl.
  - rewrite in_keys_setitem. intuition.
  - tauto.
Qed.

Lemma update_loop_keys (tag : string) (names : list string) :
  forall m, snd (update_loop tag names m) = Ok tt ->
            NoDup (keys m ++ discovered_start_times tag names) ->
            keys (fst (update_loop tag names m))
            = (keys m ++ discovered_start_times tag names)%list.
Proof.
  induction names as [|f names IH]; intros m; simpl.
  - intros _ _. now rewrite app_nil_r.
  - unfold parse_batch_name, batch_name_of.
    destruct (split_once_shape "_" (fst (splitext f))) as [[_ Hs]|[_ (x & y & Hs)]];
      rewrite Hs; simpl; [discriminate|].
    destruct (y =? tag)%string; intros Hok Hnd; simpl in *.
    + assert (Hnin : ~ In x (keys m)).
      { intros Hin. apply NoDup_remove_2 in Hnd. apply Hnd.
        apply in_or_app. now left. }
      rewrite (IH _ Hok); rewrite keys_setitem_new by assumption;
        rewrite <- app_assoc; [reflexivity | exact Hnd].
    + now apply IH.
Qed.

Lemma update_loop_values (tag : string) (names : list string) :
  forall m, (forall k b, In (k, b) m -> b = batch_cls k tag) ->
            forall k b, In (k, b) (fst (update_loop tag names m)) ->
                        b = batch_cls k tag.
Proof.
  induction names as [|f names IH]; intros m Hm; simpl; [assumption|].
  destruct (unpack2 (split_once "_" (fst (splitext f)))) as [[st tg]|e];
    [|assumption].
  destruct (String.eqb_spec tg tag) as [->|Hne]; apply IH; [|assumption].
  intros k b Hin. apply setitem_in in Hin. destruct Hin as [[= -> ->]|Hin].
  - reflexivity.
  - now apply Hm.
Qed.

Section Rescan.

Context {E : Environ} {L : SpectrogramLib}.

(** [update] forgets the previous index: inside a valid date scope it is the
    loop over the discovered file names, started from the empty dictionary
    and followed by the sort. *)
Lemma update_unfold (fs : FileSystem) (self : Batches) (dir : string) :
  batches_dir_path self = Ok dir ->
  update fs self
  = match update_loop (_tag self) (walk_files fs dir) [] with
    | (m, Raise e) => (set_batch_map self m, Raise e)
    | (m, Ok _) => (set_batch_map self (sorted_items m), Ok tt)
    end.
Proof.
  intros Hdir. unfold update.
  change (batches_dir_path (set_batch_map self [])) with (batches_dir_path self).
  rewrite Hdir. reflexivity.
Qed.

Lemma update_invalid_scope (fs : FileSystem) (self : Batches) (e : exn) :
  batches_dir_path self = Raise e ->
  update fs self = (set_batch_map self [], Raise e).
Proof.
  intros Hdir. unfold update.
  change (batches_dir_path (set_batch_map self [])) with (batches_dir_path self).
  now rewrite Hdir.
Qed.

Lemma update_outcome (fs : FileSystem) (self : Batches) (dir : string) :
  batches_dir_path self = Ok dir ->
  snd (update fs self) = snd (update_loop (_tag self) (walk_files fs dir) []).
Proof.
  intros Hdir. rewrite (update_unfold fs self dir Hdir).
  destruct (update_loop (_tag self) (walk_files fs dir) []) as [m [[]|e]];
    reflexivity.
Qed.

Lemma update_same_scope (fs : FileSystem) (self1 self2 : Batches) :
  _tag self1 = _tag self2 -> _year self1 = _year self2 ->
  _month self1 = _month self2 -> _day self1 = _day self2 ->
  update fs self1 = update fs self2.
Proof.
  destruct self1, self2; simpl; intros; subst; reflexivity.
Qed.

Lemma update_keeps_scope (fs : FileSystem) (self : Batches) :
  let self' := fst (update fs self) in
  _tag self' = _tag self /\ _year self' = _year self
  /\ _month self' = _month self /\ _day self' = _day self.
Proof.
  unfold update.
  destruct (batches_dir_path (set_batch_map self [])) as [dir|e]; simpl.
  - destruct (update_loop (_tag self) (walk_files fs dir) []) as [m [[]|e]];
      simpl; auto.
  - auto.
Qed.

Lemma update_ok_inv (fs : FileSystem) (self self' : Batches) :
  update fs self = (self', Ok tt) ->
  exists dir m,
    batches_dir_path self = Ok dir
    /\ update_loop (_tag self) (walk_files fs dir) [] = (m, Ok tt)
    /\ self' = set_batch_map self (sorted_items m).
Proof.
  intros Hup. destruct (batches_dir_path self) as [dir|e] eqn:Hdir.
  - rewrite (update_unfold fs self dir Hdir) in Hup.
    destruct (update_loop (_tag self) (walk_files fs dir) []) as [m [[]|e]]
      eqn:Hloop; inversion Hup; subst.
    now exists dir, m.
  - rewrite (update_invalid_scope fs self e Hdir) in Hup. discriminate.
Qed.

(** The index which a rescan leaves behind is sorted by start time. *)
Lemma update_index_sorted (fs : FileSystem) (self self' : Batches) :
  update fs self = (self', Ok tt) ->
  strictly_increasing (start_times self') /\ NoDup (start_times self').
Proof.
  intros Hup.
  destruct (update_ok_inv fs self self' Hup) as (dir & m & Hdir & Hloop & ->).
  assert (Hnd : NoDup (keys m)).
  { change m with (fst (m, Ok tt : result unit)). rewrite <- Hloop.
    apply update_loop_keys_NoDup. constructor. }
  unfold start_times. simpl. rewrite keys_sorted_items.
  split; [now apply sorted_strs_strict|].
  apply strictly_increasing_NoDup. now apply sorted_strs_strict.
Qed.

(** C4. After an [update] which returns, the start times of the registry
    are strictly increasing in the order of the strings, no start time
    occurs twice, the start times are those of the discovered files of the
    tag, and when these files have pairwise different timestamps the list
    of start times is the sorted list of the timestamps. *)
Theorem update_start_times_sorted (fs : FileSystem) (self self' : Batches) :
  update fs self = (self', Ok tt) ->
  strictly_increasing (start_times self')
  /\ NoDup (start_times self')
  /\ forall dir,
       batches_dir_path self = Ok dir ->
       let timestamps :=
         discovered_start_times (_tag self) (walk_files fs dir) in
       (forall k, In k (start_times self') <-> In k timestamps)
       /\ (NoDup timestamps -> start_times self' = sorted_strs timestamps).
Proof.
  intros Hup.
  destruct (update_index_sorted fs self self' Hup) as (Hsorted & Hnodup).
  split; [exact Hsorted|]. split; [exact Hnodup|].
  destruct (update_ok_inv fs self self' Hup) as (dir & m & Hdir & Hloop & ->).
  intros dir' Hdir'. rewrite Hdir in Hdir'. inversion Hdir'; subst dir'.
  assert (Hok : snd (update_loop (_tag self) (walk_files fs dir) []) = Ok tt)
    by now rewrite Hloop.
  unfold start_times. simpl. rewrite keys_sorted_items.
  split.
  - intros k. rewrite sorted_strs_in.
    pose proof (update_loop_keys_in (_tag self) (walk_files fs dir) k [] Hok) as H.
    rewrite Hloop in H. simpl in H. tauto.
  - intros Hdistinct.
    pose proof (update_loop_keys (_tag self) (walk_files fs dir) [] Hok Hdistinct)
      as H.
    rewrite Hloop in H. simpl in H. now rewrite H.
Qed.

(** C6. [update] is idempotent: on an unchanged file system a second call
    leaves the registry and the outcome of the first call unchanged. *)
Theorem update_idempotent (fs : FileSystem) (self : Batches) :
  update fs (fst (update fs self)) = update fs self.
Proof.
  destruct (update_keeps_scope fs self) as (Ht & Hy & Hm & Hd).
  now apply update_same_scope.
Qed.

(** C8. Inside a valid date scope [update] returns exactly when every
    discovered file name, its extension stripped, contains an underscore;
    a single file name without one makes the call raise the [ValueError] of
    the failed tuple assignment instead of being skipped. *)
Theorem update_total_iff_underscores
  (fs : FileSystem) (self : Batches) (dir : string) :
  batches_dir_path self = Ok dir ->
  (snd (update fs self) = Ok tt
   <-> forall f, In f (walk_files fs dir) ->
                 contains_char "_" (batch_name_of f) = true)
  /\ (forall f, In f (walk_files fs dir) ->
                contains_char "_" (batch_name_of f) = false ->
                snd (update fs self)
                = Raise (ValueError
                           "not enough values to unpack (expected 2, got 1)")).
Proof.
  intros Hdir. rewrite (update_outcome fs self dir Hdir). split; [split|].
  - intros Hok f Hf.
    destruct (contains_char "_" (batch_name_of f)) eqn:Hc; [reflexivity|].
    rewrite (update_loop_fail (_tag self) (walk_files fs dir)) in Hok;
      [discriminate | now exists f].
  - intros Hall. now apply update_loop_ok.
  - intros f Hf Hc. apply update_loop_fail. now exists f.
Qed.

End Rescan.

(* ================================================================== *)
(** * Lookups                                                          *)
(* ================================================================== *)

Lemma StronglySorted_nth {A : Type} (R : A -> A -> Prop) (l : list A) :
  StronglySorted R l ->
  forall (i j : nat) (a b : A),
    nth_error l i = Some a -> nth_error l j = Some b -> (i < j)%nat -> R a b.
Proof.
  induction 1 as [|x l Hs IH Hall]; intros i j a b Hi Hj Hlt.
  - destruct i; discriminate.
  - destruct j as [|j]; [lia|]. simpl in Hj.
    destruct i as [|i]; simpl in Hi.
    + inversion Hi; subst. rewrite Forall_forall in Hall.
      apply Hall. eapply nth_error_In. eassumption.
    + eapply IH; eauto. lia.
Qed.

Lemma strictly_increasing_nth_leb (l : list string) (i j : nat) (a b : string) :
  strictly_increasing l ->
  nth_error l i = Some a -> nth_error l j = Some b -> (i <= j)%nat ->
  (a <=? b)%string = true.
Proof.
  intros Hs Hi Hj Hle. destruct (Nat.eq_dec i j) as [->|Hne].
  - rewrite Hi in Hj. inversion Hj; subst. apply leb_refl.
  - apply ltb_leb.
    apply (StronglySorted_nth _ l Hs i j a b Hi Hj). lia.
Qed.

Section Lookups.

Context {E : Environ} {L : SpectrogramLib}.

(** After a rescan every key of the index is the start time of the batch
    stored under it. *)
Lemma update_items (fs : FileSystem) (self self' : Batches) (k : string) (b : Batch) :
  update fs self = (self', Ok tt) ->
  In (k, b) (_batch_map self') -> b = batch_cls k (_tag self).
Proof.
  intros Hup Hin.
  destruct (update_ok_inv fs self self' Hup) as (dir & m & _ & Hloop & ->).
  simpl in Hin.
  apply (Permutation_in _ (sorted_items_perm m)) in Hin.
  apply (update_loop_values (_tag self) (walk_files fs dir) []).
  - intros ? ? [].
  - now rewrite Hloop.
Qed.

Lemma update_nth_start_time (fs : FileSystem) (self self' : Batches)
  (i : nat) (b : Batch) :
  update fs self = (self', Ok tt) ->
  nth_error (batch_list self') i = Some b ->
  nth_error (start_times self') i = Some (b_start_time b).
Proof.
  intros Hup Hb. unfold batch_list, values in Hb. unfold start_times, keys.
  rewrite nth_error_map in *.
  destruct (nth_error (_batch_map self') i) as [[k b']|] eqn:Hn;
    simpl in *; [|discriminate].
  inversion Hb; subst b'.
  apply nth_error_In in Hn.
  now rewrite (update_items fs self self' k b Hup Hn).
Qed.

Lemma length_start_times (self : Batches) :
  List.length (start_times self) = List.length (batch_list self).
Proof.
  unfold start_times, batch_list, keys, values. now rewrite !length_map.
Qed.

Lemma update_valid_scope (fs : FileSystem) (self self' : Batches) :
  update fs self = (self', Ok tt) ->
  exists dir, batches_dir_path self' = Ok dir.
Proof.
  intros Hup.
  destruct (update_ok_inv fs self self' Hup) as (dir & m & Hdir & _ & ->).
  now exists dir.
Qed.

(** A registry whose date scope is invalid, as a failed [set_date] leaves
    it, cannot even report a missing start time: building the message of
    the error evaluates [batches_dir_path], which raises. *)
Lemma get_from_start_time_invalid_scope
  (self : Batches) (start_time : string) (e : exn) :
  batches_dir_path self = Raise e ->
  ~ In start_time (start_times self) ->
  _get_from_start_time self start_time = Raise e.
Proof.
  intros Hdir Hnin. unfold _get_from_start_time.
  apply lookup_none in Hnin. now rewrite Hnin, Hdir.
Qed.

(** C7. Lookup by a start-time string returns the batch stored under that
    key when the key is in the index; when it is not, and the date scope of
    the registry is valid, it raises [BatchNotFoundError]. A registry which
    a rescan has produced has pairwise different keys and a valid date
    scope, and stores under every start time the batch of that start time
    and of the tag of the registry. *)
Theorem get_from_start_time_spec (self : Batches) (start_time : string) :
  __getitem__ self (SubStr start_time) = _get_from_start_time self start_time
  /\ (forall batch,
        NoDup (start_times self) ->
        In (start_time, batch) (_batch_map self) ->
        _get_from_start_time self start_time = Ok batch)
  /\ (forall dir,
        batches_dir_path self = Ok dir ->
        ~ In start_time (start_times self) ->
        _get_from_start_time self start_time
        = Raise (BatchNotFoundError
                   ("Batch with start time " ++ start_time
                      ++ " could not be found within " ++ dir)))
  /\ (forall (fs : FileSystem) (self0 : Batches),
        update fs self0 = (self, Ok tt) ->
        NoDup (start_times self)
        /\ (exists dir, batches_dir_path self = Ok dir)
        /\ (In start_time (start_times self) ->
            _get_from_start_time self start_time
            = Ok (batch_cls start_time (_tag self)))).
Proof.
  split; [reflexivity|]. split; [|split].
  - intros batch Hnd Hin. unfold _get_from_start_time.
    now rewrite (lookup_in _ _ _ Hnd Hin).
  - intros dir Hdir Hnin. unfold _get_from_start_time.
    apply lookup_none in Hnin. rewrite Hnin, Hdir. reflexivity.
  - intros fs self0 Hup.
    destruct (update_index_sorted fs self0 self Hup) as (_ & Hnd).
    split; [exact Hnd|]. split; [now apply (update_valid_scope fs self0)|].
    intros Hin. unfold _get_from_start_time.
    destruct (lookup (_batch_map self) start_time) as [b|] eqn:Hl.
    + apply lookup_some_in in Hl.
      rewrite (update_items fs self0 self start_time b Hup Hl).
      destruct (update_keeps_scope fs self0) as (Htag & _).
      rewrite Hup in Htag. simpl in Htag. now rewrite Htag.
    + apply lookup_none in Hl. contradiction.
Qed.

(** C2, as the code has it. Index lookup raises [BatchNotFoundError] on an
    empty registry. On a registry of [n > 0] batches an index [0 <= i < n]
    returns the batch at position [i]; the index [n] passes the guard of
    the method and is then refused by the list with an [IndexError]; an
    index above [n] is refused by the guard with an [IndexError]. On a
    registry which a rescan has produced, index [0] returns a batch whose
    start time is the least of the index. *)
Theorem get_from_index_spec (self : Batches) (index : Z) :
  let n := num_batches self in
  (n = 0 ->
   _get_from_index self index
   = Raise (BatchNotFoundError "No batches are available"))
  /\ (0 < n -> 0 <= index < n ->
      exists batch,
        nth_error (batch_list self) (Z.to_nat index) = Some batch
        /\ _get_from_index self index = Ok batch)
  /\ (0 < n -> index = n ->
      _get_from_index self index
      = Raise (IndexError "list index out of range"))
  /\ (0 < n -> n < index ->
      _get_from_index self index
      = Raise (IndexError
                 ("Index '" ++ str_of_int index
                    ++ "' is greater than the number of batches '"
                    ++ str_of_int n ++ "'")))
  /\ (forall (fs : FileSystem) (self0 : Batches),
        update fs self0 = (self, Ok tt) -> 0 < n ->
        exists batch,
          _get_from_index self 0 = Ok batch
          /\ forall k, In k (start_times self) ->
                       (b_start_time batch <=? k)%string = true).
Proof.
  intros n. unfold _get_from_index. fold n.
  assert (Hn : n = Z.of_nat (List.length (batch_list self))) by reflexivity.
  repeat split.
  - intros ->. reflexivity.
  - intros Hpos Hi.
    destruct (Z.eqb_spec n 0); [lia|].
    destruct (Z.gtb_spec index n); [lia|].
    apply getitem_nonneg. lia.
  - intros Hpos ->.
    destruct (Z.eqb_spec n 0); [lia|].
    destruct (Z.gtb_spec n n); [lia|].
    apply getitem_out_of_range. lia.
  - intros Hpos Hi.
    destruct (Z.eqb_spec n 0); [lia|].
    destruct (Z.gtb_spec index n); [reflexivity | lia].
  - intros fs self0 Hup Hpos.
    destruct (Z.eqb_spec n 0); [lia|].
    destruct (Z.gtb_spec 0 n); [lia|].
    destruct (getitem_nonneg (batch_list self) 0) as (b & Hnth & Hget); [lia|].
    exists b. split; [assumption|].
    intros k Hk. apply In_nth_error in Hk. destruct Hk as (j & Hj).
    destruct (update_index_sorted fs self0 self Hup) as (Hs & _).
    apply (strictly_increasing_nth_leb (start_times self) 0 j); try assumption.
    + now apply (update_nth_start_time fs self0 self).
    + lia.
Qed.

(** C9. On a registry of [n > 0] batches a negative index [-n <= i <= -1]
    raises nothing and returns the batch at position [n + i]; below [-n]
    there is no wrapping, the list refuses the index. On a registry which a
    rescan has produced, index [-1] returns a batch whose start time is the
    greatest of the index. *)
Theorem get_from_negative_index (self : Batches) (index : Z) :
  let n := num_batches self in
  0 < n ->
  (- n <= index <= -1 ->
   exists batch,
     nth_error (batch_list self) (Z.to_nat (n + index)) = Some batch
     /\ _get_from_index self index = Ok batch
     /\ __getitem__ self (SubInt index) = Ok batch)
  /\ (index < - n ->
      _get_from_index self index
      = Raise (IndexError "list index out of range"))
  /\ (forall (fs : FileSystem) (self0 : Batches),
        update fs self0 = (self, Ok tt) ->
        exists batch,
          _get_from_index self (-1) = Ok batch
          /\ forall k, In k (start_times self) ->
                       (k <=? b_start_time batch)%string = true).
Proof.
  intros n Hpos. unfold __getitem__, _get_from_index. fold n.
  assert (Hn : n = Z.of_nat (List.length (batch_list self))) by reflexivity.
  destruct (Z.eqb_spec n 0); [lia|].
  repeat split.
  - intros Hi. destruct (Z.gtb_spec index n); [lia|].
    destruct (getitem_negative (batch_list self) index) as (b & Hnth & Hget);
      [lia|].
    exists b. rewrite Hn. auto.
  - intros Hi. destruct (Z.gtb_spec index n); [lia|].
    apply getitem_out_of_range. lia.
  - intros fs self0 Hup. destruct (Z.gtb_spec (-1) n); [lia|].
    destruct (getitem_negative (batch_list self) (-1)) as (b & Hnth & Hget);
      [lia|].
    exists b. split; [assumption|].
    intros k Hk. apply In_nth_error in Hk. destruct Hk as (j & Hj).
    destruct (update_index_sorted fs self0 self Hup) as (Hs & _).
    apply (strictly_increasing_nth_leb (start_times self) j
             (Z.to_nat (Z.of_nat (List.length (batch_list self)) + -1)));
      try assumption.
    + now apply (update_nth_start_time fs self0 self).
    + assert (j < List.length (start_times self))%nat.
      { apply nth_error_Some. congruence. }
      rewrite length_start_times in *. lia.
Qed.

End Lookups.

(* ================================================================== *)
(** * The date-partitioned directories                                 *)
(* ================================================================== *)

Lemma contains_char_app (c : ascii) (s1 s2 : string) :
  contains_char c (s1 ++ s2) = contains_char c s1 || contains_char c s2.
Proof.
  induction s1 as [|a s1 IH]; simpl; [reflexivity|].
  now rewrite IH, orb_assoc.
Qed.

Lemma contains_char_zeros (n : nat) : contains_char "/" (zeros n) = false.
Proof. induction n; simpl; auto. Qed.

Lemma contains_char_uint (d : Decimal.uint) :
  contains_char "/" (NilEmpty.string_of_uint d) = false.
Proof. induction d; simpl; auto. Qed.

Lemma contains_char_digits (d : Decimal.uint) :
  contains_char "/" (NilZero.string_of_uint d) = false.
Proof. destruct d; try apply contains_char_uint; reflexivity. Qed.

Lemma digits_nonempty (d : Decimal.uint) : NilZero.string_of_uint d <> "".
Proof. destruct d; discriminate. Qed.

Lemma format_zero_pad_no_sep (w : nat) (z : Z) :
  contains_char "/" (format_zero_pad w z) = false.
Proof.
  unfold format_zero_pad. rewrite !contains_char_app.
  rewrite contains_char_zeros, contains_char_digits.
  now destruct (z <? 0).
Qed.

Lemma app_nonempty_r (s1 s2 : string) : s2 <> "" -> s1 ++ s2 <> "".
Proof. destruct s1; simpl; [auto | discriminate]. Qed.

Lemma format_zero_pad_nonempty (w : nat) (z : Z) : format_zero_pad w z <> "".
Proof.
  unfold format_zero_pad. apply app_nonempty_r, app_nonempty_r, digits_nonempty.
Qed.

Lemma length_zeros (n : nat) : String.length (zeros n) = n.
Proof. induction n; simpl; auto. Qed.

Lemma length_app (s1 s2 : string) :
  String.length (s1 ++ s2) = (String.length s1 + String.length s2)%nat.
Proof. induction s1; simpl; auto. Qed.

(** The components are padded to their width. *)
Lemma format_zero_pad_width (w : nat) (z : Z) :
  (w <= String.length (format_zero_pad w z))%nat.
Proof.
  unfold format_zero_pad. rewrite !length_app, length_zeros. lia.
Qed.

Lemma startswith_sep (x : string) :
  contains_char "/" x = false -> startswith x "/" = false.
Proof.
  unfold startswith. destruct x as [|a x]; [reflexivity|].
  cbn [contains_char prefix]. intros H.
  apply orb_false_elim in H. destruct H as [Ha _].
  destruct (ascii_dec "/" a) as [<-|_]; [|reflexivity].
  rewrite Ascii.eqb_refl in Ha. discriminate.
Qed.

Lemma endswith_char_app (p x : string) (c : ascii) :
  x <> "" -> contains_char c x = false -> endswith_char (p ++ x) c = false.
Proof.
  intros Hne Hc. induction p as [|a p IH]; simpl.
  - clear Hne. induction x as [|b x IHx]; simpl in *; [reflexivity|].
    apply orb_false_elim in Hc. destruct Hc as [Hb Hx].
    destruct x; [assumption | now apply IHx].
  - destruct (p ++ x) eqn:Hpx; [|assumption].
    exfalso. now apply (app_nonempty_r p x Hne).
Qed.

Lemma string_app_assoc (s1 s2 s3 : string) : (s1 ++ s2) ++ s3 = s1 ++ s2 ++ s3.
Proof. induction s1; simpl; congruence. Qed.

Lemma string_app_nil_r (s : string) : s ++ "" = s.
Proof. induction s; simpl; congruence. Qed.

Lemma join_step (path x : string) (rest : list string) :
  path <> "" -> endswith_char path "/" = false ->
  x <> "" -> contains_char "/" x = false ->
  join path (x :: rest) = join (path ++ "/" ++ x) rest
  /\ path ++ "/" ++ x <> ""
  /\ endswith_char (path ++ "/" ++ x) "/" = false.
Proof.
  intros Hp He Hx Hc. cbn [join]. rewrite (startswith_sep x Hc), He.
  destruct (String.eqb_spec path "") as [->|_]; [contradiction|].
  cbn [orb]. split; [reflexivity|]. split.
  - apply app_nonempty_r. discriminate.
  - rewrite <- string_app_assoc. now apply endswith_char_app.
Qed.

Lemma join_date_components (base : string) (year month day : option Z) :
  base <> "" -> endswith_char base "/" = false ->
  join base (date_dir_component 4 year ++ date_dir_component 2 month
               ++ date_dir_component 2 day)%list
  = base ++ date_suffix year month day.
Proof.
  unfold date_suffix, date_suffix_part, date_dir_component, truthy.
  intros Hb He.
  assert (Hstep : forall path w z rest,
             path <> "" -> endswith_char path "/" = false ->
             join path (format_zero_pad w z :: rest)
             = join (path ++ "/" ++ format_zero_pad w z) rest
             /\ path ++ "/" ++ format_zero_pad w z <> ""
             /\ endswith_char (path ++ "/" ++ format_zero_pad w z) "/" = false).
  { intros. apply join_step; auto using format_zero_pad_nonempty,
      format_zero_pad_no_sep. }
  destruct year as [y|]; [destruct (y =? 0)|];
    (destruct month as [m|]; [destruct (m =? 0)|]);
    (destruct day as [d|]; [destruct (d =? 0)|]); simpl negb; cbv iota;
    cbn [List.app];
    repeat match goal with
      | |- join ?p (format_zero_pad ?w ?z :: ?rest) = _ =>
          let H1 := fresh in let H2 := fresh in let H3 := fresh in
          destruct (Hstep p w z rest) as (H1 & H2 & H3);
          [assumption | assumption | rewrite H1; clear H1]
      end;
    cbn [join]; rewrite ?string_app_assoc, ?string_app_nil_r; reflexivity.
Qed.

Section DateScope.

Context {E : Environ} {L : SpectrogramLib}.

Lemma batches_dir_path_shape :
  _BATCHES_DIR_PATH <> "" /\ endswith_char _BATCHES_DIR_PATH "/" = false.
Proof.
  unfold _BATCHES_DIR_PATH. simpl.
  destruct (_SPECTRE_DATA_DIR_PATH =? "")%string;
    [|destruct (endswith_char _SPECTRE_DATA_DIR_PATH "/")].
  - split; [discriminate | reflexivity].
  - split; [apply app_nonempty_r; discriminate|].
    apply endswith_char_app; [discriminate | reflexivity].
  - split; [apply app_nonempty_r; discriminate|].
    change (_SPECTRE_DATA_DIR_PATH ++ "/batches")
      with (_SPECTRE_DATA_DIR_PATH ++ "/" ++ "batches").
    rewrite <- string_app_assoc.
    apply endswith_char_app; [discriminate | reflexivity].
Qed.

Lemma date_based_dir_path_ok (base : string) (year month day : option Z) :
  date_dependency (truthy year) (truthy month) (truthy day) = true ->
  _get_date_based_dir_path base year month day
  = Ok (join base (date_dir_component 4 year ++ date_dir_component 2 month
                     ++ date_dir_component 2 day)%list).
Proof.
  unfold _get_date_based_dir_path, date_dependency.
  destruct (truthy year), (truthy month), (truthy day); simpl;
    try discriminate; reflexivity.
Qed.

Lemma date_based_dir_path_invalid (year month day : option Z) :
  date_dependency (truthy year) (truthy month) (truthy day) = false ->
  exists msg, forall base,
    _get_date_based_dir_path base year month day = Raise (ValueError msg).
Proof.
  unfold _get_date_based_dir_path, date_dependency.
  destruct (truthy year), (truthy month), (truthy day); simpl;
    try discriminate; intros _; eexists; intros; reflexivity.
Qed.

Lemma get_batches_dir_path_ok (year month day : option Z) :
  date_dependency (truthy year) (truthy month) (truthy day) = true ->
  get_batches_dir_path year month day
  = Ok (_BATCHES_DIR_PATH ++ date_suffix year month day).
Proof.
  intros Hok. unfold get_batches_dir_path.
  rewrite (date_based_dir_path_ok _ _ _ _ Hok).
  destruct batches_dir_path_shape as (Hne & Hend).
  now rewrite join_date_components.
Qed.

End DateScope.

Section DateScopeClaims.

Context {E : Environ} {L : SpectrogramLib}.

(** C5, as the code has it. A date component counts when it is neither
    [None] nor [0]. The construction of the date-partitioned path succeeds
    exactly when, among the components which count, a day comes with a
    month and a year and a month comes with a year; otherwise it raises a
    [ValueError], and so does [set_date]. When it succeeds the path is the
    batches root followed by the counted components, zero-padded, as
    [/YYYY/MM/DD], and [set_date] returns exactly when the rescan of that
    directory does. *)
Theorem date_scope_spec (fs : FileSystem) (self : Batches)
  (year month day : option Z) :
  let counted := date_dependency (truthy year) (truthy month) (truthy day) in
  (forall base,
      is_ok (_get_date_based_dir_path base year month day) = counted)
  /\ (counted = false ->
      exists msg,
        (forall base,
            _get_date_based_dir_path base year month day
            = Raise (ValueError msg))
        /\ snd (set_date fs self year month day) = Raise (ValueError msg))
  /\ (counted = true ->
      let dir := _BATCHES_DIR_PATH ++ date_suffix year month day in
      get_batches_dir_path year month day = Ok dir
      /\ (snd (set_date fs self year month day) = Ok tt
          <-> forall f, In f (walk_files fs dir) ->
                        contains_char "_" (batch_name_of f) = true)).
Proof.
  intros counted. split; [|split].
  - intros base. subst counted.
    unfold _get_date_based_dir_path, date_dependency.
    destruct (truthy year), (truthy month), (truthy day); reflexivity.
  - intros Hbad. destruct (date_based_dir_path_invalid _ _ _ Hbad) as (msg & Hmsg).
    exists msg. split; [exact Hmsg|].
    unfold set_date. rewrite (update_invalid_scope _ _ (ValueError msg));
      [reflexivity | apply Hmsg].
  - intros Hgood dir.
    pose proof (get_batches_dir_path_ok _ _ _ Hgood) as Hdir. fold dir in Hdir.
    split; [exact Hdir|].
    unfold set_date. rewrite (update_outcome _ _ dir) by exact Hdir.
    cbn [_tag]. split.
    + intros Hok f Hf.
      destruct (contains_char "_" (batch_name_of f)) eqn:Hc; [reflexivity|].
      rewrite (update_loop_fail (_tag self) (walk_files fs dir)) in Hok;
        [discriminate | now exists f].
    + intros Hall. now apply update_loop_ok.
Qed.

(** C10. A date component equal to zero is dropped like an absent one: the
    batches directory of a month [0] is that of the month [None], likewise
    for a year [0] and a day [0], and a month [0] without a day raises
    nothing whatever the year. *)
Theorem zero_date_components_dropped (year month day : option Z) :
  get_batches_dir_path year (Some 0) day = get_batches_dir_path year None day
  /\ get_batches_dir_path (Some 0) month day
     = get_batches_dir_path None month day
  /\ get_batches_dir_path year month (Some 0)
     = get_batches_dir_path year month None
  /\ (exists dir,
        get_batches_dir_path year (Some 0) None = Ok dir
        /\ get_batches_dir_path year None None = Ok dir)
  /\ get_batches_dir_path None (Some 0) None = Ok _BATCHES_DIR_PATH
  /\ get_batches_dir_path (Some 0) None None = Ok _BATCHES_DIR_PATH
  /\ get_batches_dir_path None None (Some 0) = Ok _BATCHES_DIR_PATH.
Proof.
  unfold get_batches_dir_path, _get_date_based_dir_path.
  repeat split; try reflexivity.
  destruct (truthy year); simpl; eexists; split; reflexivity.
Qed.

End DateScopeClaims.

(* ================================================================== *)
(** * Range queries                                                    *)
(* ================================================================== *)

Lemma last_cons_default {A : Type} (y : A) (rest : list A) (d : A) :
  last (y :: rest) d = last rest y.
Proof.
  revert y d. induction rest as [|z rest IH]; intros y d; [reflexivity|].
  change (last (y :: z :: rest) d) with (last (z :: rest) d).
  now rewrite !IH.
Qed.

Lemma nth_error_last {A : Type} (first : A) (rest : list A) :
  nth_error (first :: rest) (List.length rest) = Some (last rest first).
Proof.
  revert first. induction rest as [|y rest IH]; intros first; [reflexivity|].
  rewrite last_cons_default. apply IH.
Qed.

Lemma getitem_first_last {A : Type} (first : A) (rest : list A) :
  getitem (first :: rest) 0 = Ok first
  /\ getitem (first :: rest) (-1) = Ok (last rest first).
Proof.
  split; [reflexivity|].
  destruct (getitem_negative (first :: rest) (-1)) as (x & Hnth & ->).
  { simpl List.length. lia. }
  replace (Z.to_nat (Z.of_nat (List.length (first :: rest)) + -1))
    with (List.length rest) in Hnth by (simpl List.length; lia).
  rewrite nth_error_last in Hnth. congruence.
Qed.

Section RangeQueries.

Context {L : SpectrogramLib}.

Lemma time_range_bounds (s : Spectrogram) :
  datetimes s <> [] ->
  exists first last,
    time_range s = Some (first, last)
    /\ getitem (datetimes s) 0 = Ok first
    /\ getitem (datetimes s) (-1) = Ok last.
Proof.
  unfold time_range. destruct (datetimes s) as [|first rest]; [congruence|].
  intros _. exists first, (last rest first).
  destruct (getitem_first_last first rest) as (H0 & H1). auto.
Qed.

Lemma time_range_nonempty (s : Spectrogram) (range : Z * Z) :
  time_range s = Some range -> datetimes s <> [].
Proof. unfold time_range. destruct (datetimes s); [discriminate | discriminate]. Qed.

(** The loop of the range query collects the clipped spectrograms of the
    overlapping batches, in the order of the registry, behind what it has
    already collected. *)
Lemma range_loop_spec (fs : FileSystem) (start_time end_time : string)
  (start_datetime end_datetime : Z) (batches : list Batch) :
  nonempty_time_axes fs batches ->
  forall spectrograms,
    range_loop fs start_time end_time start_datetime end_datetime
      batches spectrograms
    = (pieces <- mapM (fun s => time_chop s start_time end_time)
                   (overlapping fs start_datetime end_datetime batches) ;;
       Ok (spectrograms ++ pieces)%list).
Proof.
  unfold overlapping.
  induction batches as [|batch rest IH]; intros Hne acc; simpl.
  - now rewrite app_nil_r.
  - assert (Hrest : nonempty_time_axes fs rest).
    { intros b s Hb Hs. apply (Hne b s); [now right | assumption]. }
    unfold contribution at 1.
    destruct (spectrogram_file fs batch) as [s|] eqn:Hfile; [|now apply IH].
    destruct (time_range_bounds s) as (first & last & Hrange & H0 & H1).
    { apply (Hne batch s); [now left | assumption]. }
    rewrite Hrange, H0, H1. unfold overlaps. simpl.
    destruct ((start_datetime <=? last) && (first <=? end_datetime));
      simpl; [|now apply IH].
    destruct (time_chop s start_time end_time) as [chopped|e]; simpl;
      [|reflexivity].
    rewrite (IH Hrest).
    destruct (mapM _ _) as [pieces|e]; simpl; [|reflexivity].
    now rewrite <- app_assoc.
Qed.

Lemma get_spectrogram_from_range_spec (fs : FileSystem) (self : Batches)
  (start_time end_time : string) (start_datetime end_datetime : Z) :
  strptime start_time = Ok start_datetime ->
  strptime end_time = Ok end_datetime ->
  nonempty_time_axes fs (batch_list self) ->
  get_spectrogram_from_range fs self start_time end_time
  = range_query_spec fs (batch_list self) start_time end_time
      start_datetime end_datetime.
Proof.
  intros Hs He Hne. unfold get_spectrogram_from_range, range_query_spec, __iter__.
  rewrite Hs, He. simpl. rewrite (range_loop_spec _ _ _ _ _ _ Hne).
  destruct (mapM _ _) as [pieces|e]; reflexivity.
Qed.

Lemma overlapping_app (fs : FileSystem) (start_datetime end_datetime : Z)
  (before : list Batch) (batch : Batch) (after : list Batch) :
  overlapping fs start_datetime end_datetime (before ++ batch :: after)
  = (overlapping fs start_datetime end_datetime before
       ++ contribution fs start_datetime end_datetime batch
       ++ overlapping fs start_datetime end_datetime after)%list.
Proof. unfold overlapping. now rewrite flat_map_app. Qed.

Lemma contribution_iff (fs : FileSystem) (start_datetime end_datetime : Z)
  (batch : Batch) (s : Spectrogram) (first last : Z) :
  spectrogram_file fs batch = Some s ->
  time_range s = Some (first, last) ->
  (start_datetime <= last /\ first <= end_datetime ->
   contribution fs start_datetime end_datetime batch = [s])
  /\ (~ (start_datetime <= last /\ first <= end_datetime) ->
      contribution fs start_datetime end_datetime batch = []).
Proof.
  intros Hfile Hrange. unfold contribution, overlaps.
  rewrite Hfile, Hrange. simpl.
  destruct (Z.leb_spec start_datetime last), (Z.leb_spec first end_datetime);
    simpl; split; intros; try reflexivity; lia.
Qed.

Lemma overlapping_nil (fs : FileSystem) (start_datetime end_datetime : Z)
  (batches : list Batch) :
  (forall b, In b batches ->
             contribution fs start_datetime end_datetime b = []) ->
  overlapping fs start_datetime end_datetime batches = [].
Proof.
  unfold overlapping. induction batches as [|b rest IH]; intros Hall; simpl.
  - reflexivity.
  - rewrite (Hall b (or_introl eq_refl)), IH; [reflexivity|].
    intros b' Hb'. apply Hall. now right.
Qed.

(** C1. A range query over a registry whose spectrogram files have
    non-empty time axes joins the clipped spectrograms of the overlapping
    batches, in registry order. A batch whose spectrogram file exists
    contributes its spectrogram exactly when
    [start <= batch.last] and [batch.first <= end], both bounds inclusive:
    a batch of the time range [end, end] is included, a batch which begins
    after [end] is not. *)
Theorem range_query_includes_overlapping (fs : FileSystem) (self : Batches)
  (start_time end_time : string) (start_datetime end_datetime : Z) :
  strptime start_time = Ok start_datetime ->
  strptime end_time = Ok end_datetime ->
  nonempty_time_axes fs (batch_list self) ->
  get_spectrogram_from_range fs self start_time end_time
  = range_query_spec fs (batch_list self) start_time end_time
      start_datetime end_datetime
  /\ forall before batch after s first last,
       batch_list self = (before ++ batch :: after)%list ->
       spectrogram_file fs batch = Some s ->
       time_range s = Some (first, last) ->
       overlapping fs start_datetime end_datetime (batch_list self)
       = (overlapping fs start_datetime end_datetime before
            ++ contribution fs start_datetime end_datetime batch
            ++ overlapping fs start_datetime end_datetime after)%list
       /\ (start_datetime <= last /\ first <= end_datetime ->
           contribution fs start_datetime end_datetime batch = [s])
       /\ (~ (start_datetime <= last /\ first <= end_datetime) ->
           contribution fs start_datetime end_datetime batch = [])
       /\ (first = end_datetime -> last = end_datetime ->
           start_datetime <= end_datetime ->
           contribution fs start_datetime end_datetime batch = [s])
       /\ (end_datetime < first ->
           contribution fs start_datetime end_datetime batch = []).
Proof.
  intros Hs He Hne. split.
  - now apply get_spectrogram_from_range_spec.
  - intros before batch after s first last Hlist Hfile Hrange.
    destruct (contribution_iff fs start_datetime end_datetime batch s first last
                Hfile Hrange) as (Hin & Hout).
    repeat split.
    + rewrite Hlist. apply overlapping_app.
    + exact Hin.
    + exact Hout.
    + intros -> -> Hle. apply Hin. lia.
    + intros Hafter. apply Hout. lia.
Qed.

(** C3. When no batch of the registry with an existing spectrogram file
    overlaps the requested interval, the range query raises
    [SpectrogramNotFoundError]: it returns no spectrogram at all. *)
Theorem range_query_not_found (fs : FileSystem) (self : Batches)
  (start_time end_time : string) (start_datetime end_datetime : Z) :
  strptime start_time = Ok start_datetime ->
  strptime end_time = Ok end_datetime ->
  (forall b s,
      In b (batch_list self) -> spectrogram_file fs b = Some s ->
      exists first last,
        time_range s = Some (first, last)
        /\ ~ (start_datetime <= last /\ first <= end_datetime)) ->
  get_spectrogram_from_range fs self start_time end_time
  = Raise (SpectrogramNotFoundError
             "No spectrogram data found for the given time range").
Proof.
  intros Hs He Hnone.
  rewrite (get_spectrogram_from_range_spec fs self _ _ _ _ Hs He).
  - unfold range_query_spec.
    assert (Hempty : overlapping fs start_datetime end_datetime (batch_list self)
                     = []).
    { apply overlapping_nil. intros b Hb.
      destruct (spectrogram_file fs b) as [s|] eqn:Hfile.
      - destruct (Hnone b s Hb Hfile) as (f & l & Hr & Hno).
        now apply (contribution_iff fs _ _ b s f l Hfile Hr).
      - unfold contribution. now rewrite Hfile. }
    now rewrite Hempty.
  - intros b s Hb Hfile. destruct (Hnone b s Hb Hfile) as (f & l & Hr & _).
    now apply (time_range_nonempty s (f, l)).
Qed.

End RangeQueries.

(* ================================================================== *)
(** * The registry at work                                             *)
(* ================================================================== *)

(** The rescan of [Demo.fs] returns and leaves the three batches of the
    tag, oldest first. *)
Lemma demo_registry_update :
  @update Demo.environ Demo.lib Demo.fs Demo.blank = (Demo.registry, Ok tt).
Proof. vm_compute. reflexivity. Qed.

Lemma demo_registry_batches :
  batch_list Demo.registry
  = [batch_cls Demo.t1 "obs"; batch_cls Demo.t2 "obs"; batch_cls Demo.t3 "obs"].
Proof. vm_compute. reflexivity. Qed.

Lemma demo_nonempty_time_axes :
  @nonempty_time_axes Demo.lib Demo.fs (batch_list Demo.registry).
Proof.
  intros b s Hb Hs. rewrite demo_registry_batches in Hb.
  destruct Hb as [<-|[<-|[<-|[]]]]; vm_compute in Hs;
    inversion Hs; subst; discriminate.
Defined.

(** C1 on the demo registry: the query [t1 .. t3] joins the first batch and
    the third, whose only timestamp is the end of the window. *)
Lemma range_query_includes_overlapping_witness :
  @strptime Demo.lib Demo.t1 = Ok 20240101000000
  /\ @strptime Demo.lib Demo.t3 = Ok 20240101000020
  /\ @nonempty_time_axes Demo.lib Demo.fs (batch_list Demo.registry)
  /\ @get_spectrogram_from_range Demo.lib Demo.fs Demo.registry Demo.t1 Demo.t3
     = @range_query_spec Demo.lib Demo.fs (batch_list Demo.registry)
         Demo.t1 Demo.t3 20240101000000 20240101000020
  /\ @contribution Demo.lib Demo.fs 20240101000000 20240101000020
       (batch_cls Demo.t3 "obs")
     = [[20240101000020]].
Proof.
  split; [reflexivity|]. split; [reflexivity|].
  split; [exact demo_nonempty_time_axes|].
  destruct (@range_query_includes_overlapping Demo.lib Demo.fs Demo.registry
              Demo.t1 Demo.t3 20240101000000 20240101000020
              eq_refl eq_refl demo_nonempty_time_axes) as (Hquery & Hbatch).
  split; [exact Hquery|].
  destruct (Hbatch [batch_cls Demo.t1 "obs"; batch_cls Demo.t2 "obs"]
              (batch_cls Demo.t3 "obs") [] [20240101000020]
              20240101000020 20240101000020)
    as (_ & _ & _ & Hend & _);
    [vm_compute; reflexivity | reflexivity | reflexivity |].
  apply Hend; [reflexivity | reflexivity | lia].
Defined.

(** C3 on the demo registry: nothing was recorded between the first batch
    and the third. *)
Lemma range_query_not_found_witness :
  @strptime Demo.lib "2024-01-01T00:00:06" = Ok 20240101000006
  /\ @strptime Demo.lib "2024-01-01T00:00:19" = Ok 20240101000019
  /\ @get_spectrogram_from_range Demo.lib Demo.fs Demo.registry
       "2024-01-01T00:00:06" "2024-01-01T00:00:19"
     = Raise (SpectrogramNotFoundError
                "No spectrogram data found for the given time range").
Proof.
  split; [reflexivity|]. split; [reflexivity|].
  apply (@range_query_not_found Demo.lib Demo.fs Demo.registry
           "2024-01-01T00:00:06" "2024-01-01T00:00:19"
           20240101000006 20240101000019 eq_refl eq_refl).
  intros b s Hb Hs. rewrite demo_registry_batches in Hb.
  destruct Hb as [<-|[<-|[<-|[]]]]; vm_compute in Hs; inversion Hs; subst.
  - exists 20240101000000, 20240101000005. split; [reflexivity | lia].
  - exists 20240101000020, 20240101000020. split; [reflexivity | lia].
Defined.

(** C4 on a directory with one file per batch, found out of order. *)
Lemma update_start_times_sorted_witness :
  @update Demo.environ Demo.lib Demo.fs_distinct Demo.blank
  = (Demo.registry, Ok tt)
  /\ NoDup (discovered_start_times "obs"
              (@walk_files Demo.lib Demo.fs_distinct "/data/batches"))
  /\ strictly_increasing (start_times Demo.registry)
  /\ start_times Demo.registry
     = sorted_strs (discovered_start_times "obs"
                      (@walk_files Demo.lib Demo.fs_distinct "/data/batches")).
Proof.
  assert (Hup : @update Demo.environ Demo.lib Demo.fs_distinct Demo.blank
                = (Demo.registry, Ok tt)) by (vm_compute; reflexivity).
  assert (Hnd : NoDup (discovered_start_times "obs"
                         (@walk_files Demo.lib Demo.fs_distinct "/data/batches"))).
  { vm_compute. repeat constructor; simpl; intuition discriminate. }
  split; [exact Hup|]. split; [exact Hnd|].
  destruct (@update_start_times_sorted Demo.environ Demo.lib Demo.fs_distinct
              Demo.blank Demo.registry Hup) as (Hs & _ & Hdir).
  split; [exact Hs|].
  destruct (Hdir "/data/batches" eq_refl) as (_ & Heq).
  exact (Heq Hnd).
Defined.

(** C7 on the demo registry: a start time of the index, and one which is
    not in it. *)
Lemma get_from_start_time_spec_witness :
  NoDup (start_times Demo.registry)
  /\ In (Demo.t2, batch_cls Demo.t2 "obs") (_batch_map Demo.registry)
  /\ @_get_from_start_time Demo.environ Demo.registry Demo.t2
     = Ok (batch_cls Demo.t2 "obs")
  /\ ~ In "2024-01-01T00:00:30" (start_times Demo.registry)
  /\ @_get_from_start_time Demo.environ Demo.registry "2024-01-01T00:00:30"
     = Raise (BatchNotFoundError
                "Batch with start time 2024-01-01T00:00:30 could not be found within /data/batches").
Proof.
  assert (Hnd : NoDup (start_times Demo.registry)).
  { vm_compute. repeat constructor; simpl; intuition discriminate. }
  assert (Hin : In (Demo.t2, batch_cls Demo.t2 "obs") (_batch_map Demo.registry)).
  { vm_compute. right. left. reflexivity. }
  assert (Hout : ~ In "2024-01-01T00:00:30" (start_times Demo.registry)).
  { vm_compute. intuition discriminate. }
  split; [exact Hnd|]. split; [exact Hin|].
  split.
  - destruct (@get_from_start_time_spec Demo.environ Demo.lib Demo.registry
                Demo.t2) as (_ & Hfound & _).
    exact (Hfound _ Hnd Hin).
  - split; [exact Hout|].
    destruct (@get_from_start_time_spec Demo.environ Demo.lib Demo.registry
                "2024-01-01T00:00:30") as (_ & _ & Hmissing & _).
    exact (Hmissing "/data/batches" eq_refl Hout).
Defined.

(** C8 on a directory with a foreign file in it. *)
Lemma update_total_iff_underscores_witness :
  @batches_dir_path Demo.environ Demo.blank = Ok "/data/batches"
  /\ In "README.md" (@walk_files Demo.lib Demo.fs_foreign "/data/batches")
  /\ contains_char "_" (batch_name_of "README.md") = false
  /\ snd (@update Demo.environ Demo.lib Demo.fs_foreign Demo.blank)
     = Raise (ValueError "not enough values to unpack (expected 2, got 1)").
Proof.
  assert (Hin : In "README.md"
                  (@walk_files Demo.lib Demo.fs_foreign "/data/batches")).
  { vm_compute. right. left. reflexivity. }
  split; [reflexivity|]. split; [exact Hin|]. split; [reflexivity|].
  destruct (@update_total_iff_underscores Demo.environ Demo.lib Demo.fs_foreign
              Demo.blank "/data/batches" eq_refl) as (_ & Hraise).
  exact (Hraise "README.md" Hin eq_refl).
Defined.

(** C2 does not hold at the index equal to the count: the demo registry
    holds three batches and refuses the index [3]. *)
Lemma index_equal_to_count_refused :
  num_batches Demo.registry = 3
  /\ _get_from_index Demo.registry 3
     = Raise (IndexError "list index out of range")
  /\ ~ (forall (self : Batches) (index : Z),
          0 < num_batches self -> index <= num_batches self ->
          is_ok (_get_from_index self index) = true).
Proof.
  split; [reflexivity|]. split; [reflexivity|].
  intros Hclaim.
  specialize (Hclaim Demo.registry 3).
  assert (H : is_ok (_get_from_index Demo.registry 3) = true).
  { apply Hclaim; vm_compute; congruence. }
  vm_compute in H. discriminate.
Qed.

(** C2 as amended, on the demo registry. *)
Lemma get_from_index_spec_witness :
  0 < num_batches Demo.registry
  /\ _get_from_index Demo.registry 0 = Ok (batch_cls Demo.t1 "obs")
  /\ _get_from_index Demo.registry 3
     = Raise (IndexError "list index out of range")
  /\ _get_from_index Demo.registry 4
     = Raise (IndexError "Index '4' is greater than the number of batches '3'")
  /\ _get_from_index Demo.blank 0
     = Raise (BatchNotFoundError "No batches are available")
  /\ exists batch,
       _get_from_index Demo.registry 0 = Ok batch
       /\ forall k, In k (start_times Demo.registry) ->
                    (b_start_time batch <=? k)%string = true.
Proof.
  assert (Hpos : 0 < num_batches Demo.registry) by (vm_compute; reflexivity).
  split; [exact Hpos|].
  split.
  { destruct (@get_from_index_spec Demo.environ Demo.lib Demo.registry 0) as (_ & Hin & _).
    destruct (Hin Hpos) as (b & Hnth & Hget); [vm_compute; split; congruence|].
    vm_compute in Hnth. inversion Hnth; subst b. exact Hget. }
  split.
  { destruct (@get_from_index_spec Demo.environ Demo.lib Demo.registry 3) as (_ & _ & Heq & _).
    apply Heq; [exact Hpos | reflexivity]. }
  split.
  { destruct (@get_from_index_spec Demo.environ Demo.lib Demo.registry 4) as (_ & _ & _ & Hgt & _).
    apply Hgt; [exact Hpos | vm_compute; reflexivity]. }
  split.
  { destruct (@get_from_index_spec Demo.environ Demo.lib Demo.blank 0) as (Hempty & _).
    apply Hempty. reflexivity. }
  destruct (@get_from_index_spec Demo.environ Demo.lib Demo.registry 0) as (_ & _ & _ & _ & Hfirst).
  exact (Hfirst Demo.fs Demo.blank demo_registry_update Hpos).
Defined.

(** C9 on the demo registry: [-1] is the newest batch, [-3] the oldest, and
    [-4] is refused. *)
Lemma get_from_negative_index_witness :
  0 < num_batches Demo.registry
  /\ _get_from_index Demo.registry (-1) = Ok (batch_cls Demo.t3 "obs")
  /\ __getitem__ (E := Demo.environ) Demo.registry (SubInt (-3))
     = Ok (batch_cls Demo.t1 "obs")
  /\ _get_from_index Demo.registry (-4)
     = Raise (IndexError "list index out of range").
Proof.
  assert (Hpos : 0 < num_batches Demo.registry) by (vm_compute; reflexivity).
  split; [exact Hpos|].
  split.
  { destruct (@get_from_negative_index Demo.environ Demo.lib Demo.registry (-1) Hpos)
      as (Hneg & _).
    destruct Hneg as (b & Hnth & Hget & _); [vm_compute; split; congruence|].
    vm_compute in Hnth. inversion Hnth; subst b. exact Hget. }
  split.
  { destruct (@get_from_negative_index Demo.environ Demo.lib Demo.registry (-3) Hpos)
      as (Hneg & _).
    destruct Hneg as (b & Hnth & _ & Hget); [vm_compute; split; congruence|].
    vm_compute in Hnth. inversion Hnth; subst b. exact Hget. }
  destruct (@get_from_negative_index Demo.environ Demo.lib Demo.registry (-4) Hpos)
    as (_ & Hlow & _).
  apply Hlow. vm_compute. reflexivity.
Defined.

(** C5 does not hold at a month [0] without a year: the month is given,
    the year is not, and neither the path construction nor [set_date]
    raises. *)
Lemma zero_month_without_year_accepted :
  present (Some 0) = true
  /\ date_dependency (present None) (present (Some 0)) (present None) = false
  /\ _get_date_based_dir_path "/data/batches" None (Some 0) None
     = Ok "/data/batches"
  /\ snd (@set_date Demo.environ Demo.lib Demo.fs Demo.blank None (Some 0) None)
     = Ok tt
  /\ ~ (forall (base : string) (year month day : option Z),
          is_ok (_get_date_based_dir_path base year month day)
          = date_dependency (present year) (present month) (present day)).
Proof.
  repeat split; try reflexivity.
  intros Hclaim. specialize (Hclaim "/data/batches" None (Some 0) None).
  vm_compute in Hclaim. discriminate.
Qed.

(** C5 as amended, on the demo file system: a full date, and a day without
    a month. *)
Lemma date_scope_spec_witness :
  date_dependency (truthy (Some 2024)) (truthy (Some 3)) (truthy (Some 7)) = true
  /\ @get_batches_dir_path Demo.environ (Some 2024) (Some 3) (Some 7)
     = Ok "/data/batches/2024/03/07"
  /\ snd (@set_date Demo.environ Demo.lib Demo.fs Demo.blank
            (Some 2024) (Some 3) (Some 7)) = Ok tt
  /\ date_dependency (truthy (Some 2024)) (truthy None) (truthy (Some 7)) = false
  /\ exists msg,
       snd (@set_date Demo.environ Demo.lib Demo.fs Demo.blank
              (Some 2024) None (Some 7)) = Raise (ValueError msg).
Proof.
  split; [reflexivity|].
  destruct (@date_scope_spec Demo.environ Demo.lib Demo.fs Demo.blank
              (Some 2024) (Some 3) (Some 7)) as (_ & _ & Hgood).
  destruct (Hgood eq_refl) as (Hdir & Hset).
  split; [exact Hdir|].
  split; [apply Hset; intros f Hf; vm_compute in Hf; destruct Hf|].
  split; [reflexivity|].
  destruct (@date_scope_spec Demo.environ Demo.lib Demo.fs Demo.blank
              (Some 2024) None (Some 7)) as (_ & Hbad & _).
  destruct (Hbad eq_refl) as (msg & _ & Hset').
  exists msg. exact Hset'.
Defined.

(* ================================================================== *)
(** * Further properties of the registry                               *)
(* ================================================================== *)

Lemma items_determined_by_keys {V : Type} (f : string -> V) (l : list (string * V)) :
  (forall k v, In (k, v) l -> v = f k) ->
  l = map (fun k => (k, f k)) (keys l).
Proof.
  induction l as [|[k v] l IH]; intros Hl; simpl; [reflexivity|].
  rewrite (Hl k v (or_introl eq_refl)). f_equal.
  apply IH. intros k' v' Hin. apply Hl. now right.
Qed.

Section RegistryShape.

Context {E : Environ} {L : SpectrogramLib}.

Lemma update_batch_map_shape (fs : FileSystem) (self self' : Batches) :
  update fs self = (self', Ok tt) ->
  _batch_map self'
  = map (fun k => (k, batch_cls k (_tag self))) (start_times self').
Proof.
  intros Hup. apply items_determined_by_keys.
  intros k b Hin. now apply (update_items fs self self').
Qed.

Lemma update_result_scope (fs : FileSystem) (self self' : Batches) (r : result unit) :
  update fs self = (self', r) ->
  _tag self' = _tag self /\ _year self' = _year self
  /\ _month self' = _month self /\ _day self' = _day self.
Proof.
  intros Hup. pose proof (update_keeps_scope fs self) as H.
  rewrite Hup in H. exact H.
Qed.

(** X1. A constructor which returns leaves a registry of the requested tag and
    date, which iterates over one batch per start time of its index, in the
    order of the index, each batch carrying its start time and the tag. *)
Theorem init_registry_shape (fs : FileSystem) (tag : string)
  (year month day : option Z) (self : Batches) :
  __init__ fs tag year month day = (self, Ok tt) ->
  _tag self = tag /\ _year self = year /\ _month self = month
  /\ _day self = day
  /\ __iter__ self = map (fun k => batch_cls k tag) (start_times self)
  /\ __len__ self = Z.of_nat (List.length (start_times self)).
Proof.
  unfold __init__, set_date. intros Hup.
  destruct (update_result_scope _ _ _ _ Hup) as (Ht & Hy & Hm & Hd).
  simpl in Ht, Hy, Hm, Hd.
  repeat split; try assumption.
  - unfold __iter__, batch_list, values.
    rewrite (update_batch_map_shape _ _ _ Hup). simpl.
    rewrite map_map. reflexivity.
  - unfold __len__, num_batches. now rewrite length_start_times.
Qed.

(** X2. [set_date] forgets the date and the index which the registry had: a
    second call decides alone, whatever the first one did, and a call with
    the date of the registry is a plain [update]. *)
Theorem set_date_overrides (fs : FileSystem) (self : Batches)
  (year1 month1 day1 year2 month2 day2 : option Z) :
  set_date fs (fst (set_date fs self year1 month1 day1)) year2 month2 day2
  = set_date fs self year2 month2 day2
  /\ set_date fs self (_year self) (_month self) (_day self) = update fs self.
Proof.
  split.
  - unfold set_date at 1 3. apply update_same_scope; simpl; try reflexivity.
    unfold set_date.
    destruct (update fs _) as [self' r] eqn:Hup.
    now destruct (update_result_scope _ _ _ _ Hup) as (Ht & _).
  - unfold set_date. now apply update_same_scope.
Qed.

(** X3. A [set_date] with a date which breaks the dependency raises after it
    has stored the date and emptied the index. From then on every index
    lookup reports an empty registry, and a lookup by start time raises the
    [ValueError] of the date instead of [BatchNotFoundError]. *)
Theorem set_date_invalid_state (fs : FileSystem) (self : Batches)
  (year month day : option Z) :
  date_dependency (truthy year) (truthy month) (truthy day) = false ->
  exists msg,
    set_date fs self year month day
    = ({| _tag := _tag self; _year := year; _month := month; _day := day;
          _batch_map := [] |}, Raise (ValueError msg))
    /\ (forall index,
           _get_from_index (fst (set_date fs self year month day)) index
           = Raise (BatchNotFoundError "No batches are available"))
    /\ (forall start_time,
           _get_from_start_time (fst (set_date fs self year month day)) start_time
           = Raise (ValueError msg)).
Proof.
  intros Hbad.
  destruct (date_based_dir_path_invalid _ _ _ Hbad) as (msg & Hmsg).
  exists msg.
  assert (Hset : set_date fs self year month day
                 = ({| _tag := _tag self; _year := year; _month := month;
                       _day := day; _batch_map := [] |},
                     Raise (ValueError msg))).
  { unfold set_date. rewrite (update_invalid_scope _ _ (ValueError msg)).
    - reflexivity.
    - apply Hmsg. }
  split; [exact Hset|]. rewrite Hset. split.
  - intros index. reflexivity.
  - intros start_time. unfold _get_from_start_time. simpl.
    unfold batches_dir_path, get_batches_dir_path. simpl. now rewrite Hmsg.
Qed.

(** X4. In a registry which a rescan has produced the batches are ordered by
    start time: of two valid indices the smaller one returns the batch of
    the strictly smaller start time. *)
Theorem index_order_is_start_time_order (fs : FileSystem)
  (self0 self : Batches) (i j : Z) :
  update fs self0 = (self, Ok tt) ->
  0 <= i -> i < j -> j < num_batches self ->
  exists bi bj,
    _get_from_index self i = Ok bi
    /\ _get_from_index self j = Ok bj
    /\ (b_start_time bi <? b_start_time bj)%string = true.
Proof.
  intros Hup Hi Hij Hj.
  destruct (update_index_sorted fs self0 self Hup) as (Hsorted & _).
  assert (Hget : forall k, 0 <= k < num_batches self ->
                           exists b, nth_error (batch_list self) (Z.to_nat k) = Some b
                                     /\ _get_from_index self k = Ok b).
  { intros k Hk. unfold _get_from_index.
    destruct (Z.eqb_spec (num_batches self) 0); [lia|].
    destruct (Z.gtb_spec k (num_batches self)); [lia|].
    now apply getitem_nonneg. }
  destruct (Hget i) as (bi & Hni & Hgi); [lia|].
  destruct (Hget j) as (bj & Hnj & Hgj); [lia|].
  exists bi, bj. split; [exact Hgi|]. split; [exact Hgj|].
  apply (StronglySorted_nth _ (start_times self) Hsorted
           (Z.to_nat i) (Z.to_nat j)).
  - now apply (update_nth_start_time fs self0 self).
  - now apply (update_nth_start_time fs self0 self).
  - lia.
Qed.

(** X5. In a registry which a rescan has produced the two lookups agree: the
    batch at a valid index is the one found under its own start time. *)
Theorem index_and_start_time_lookups_agree (fs : FileSystem)
  (self0 self : Batches) (index : Z) :
  update fs self0 = (self, Ok tt) ->
  0 <= index < num_batches self ->
  exists batch,
    __getitem__ self (SubInt index) = Ok batch
    /\ __getitem__ self (SubStr (b_start_time batch)) = Ok batch
    /\ b_tag batch = _tag self.
Proof.
  intros Hup Hi. unfold __getitem__, _get_from_index.
  destruct (Z.eqb_spec (num_batches self) 0); [lia|].
  destruct (Z.gtb_spec index (num_batches self)); [lia|].
  destruct (getitem_nonneg (batch_list self) index Hi) as (b & Hnth & Hget).
  exists b. split; [exact Hget|].
  destruct (update_index_sorted fs self0 self Hup) as (_ & Hnd).
  unfold batch_list, values in Hnth. rewrite nth_error_map in Hnth.
  destruct (nth_error (_batch_map self) (Z.to_nat index)) as [[k b']|] eqn:Hn;
    simpl in Hnth; [|discriminate].
  inversion Hnth; subst b'. apply nth_error_In in Hn.
  pose proof (update_items fs self0 self k b Hup Hn) as Hb.
  destruct (update_result_scope _ _ _ _ Hup) as (Htag & _).
  split.
  - unfold _get_from_start_time. rewrite Hb at 1. simpl.
    now rewrite (lookup_in _ _ _ Hnd Hn).
  - rewrite Hb. simpl. now rewrite Htag.
Qed.


End RegistryShape.

(* ================================================================== *)
(** * Further properties of the rescan                                 *)
(* ================================================================== *)

Lemma split_once_spec (c : ascii) (s x y : string) :
  split_once c s = [x; y] -> s = x ++ String c y /\ contains_char c x = false.
Proof.
  revert x y. induction s as [|a s IH]; intros x y; simpl; [discriminate|].
  destruct (Ascii.eqb_spec a c) as [->|Hne].
  - intros [= <- <-]. split; reflexivity.
  - destruct (split_once_shape c s) as [[_ Hs]|[_ (x' & y' & Hs)]]; rewrite Hs.
    + discriminate.
    + intros [= <- <-]. destruct (IH x' y' Hs) as (-> & Hx).
      split; [reflexivity|]. simpl. rewrite Hx.
      apply Ascii.eqb_neq in Hne. now rewrite Hne.
Qed.

Lemma split_once_app (c : ascii) (x y : string) :
  contains_char c x = false -> split_once c (x ++ String c y) = [x; y].
Proof.
  induction x as [|a x IH]; simpl.
  - intros _. now rewrite Ascii.eqb_refl.
  - intros H. apply orb_false_elim in H. destruct H as [Ha Hx].
    rewrite Ha. now rewrite (IH Hx).
Qed.

Lemma rfind_from_absent (c : ascii) (s : string) (i : Z) :
  contains_char c s = false -> rfind_from c s i = -1.
Proof.
  revert i. induction s as [|a s IH]; intros i; simpl; [reflexivity|].
  intros H. apply orb_false_elim in H. destruct H as [Ha Hs].
  rewrite (IH _ Hs), Ha. reflexivity.
Qed.

Lemma rfind_from_last (c : ascii) (s1 s2 : string) (i : Z) :
  0 <= i -> contains_char c s2 = false ->
  rfind_from c (s1 ++ String c s2) i = i + Z.of_nat (String.length s1).
Proof.
  intros Hi Hs2. revert i Hi.
  induction s1 as [|a s1 IH]; intros i Hi.
  - cbn [append rfind_from String.length].
    rewrite (rfind_from_absent c s2 _ Hs2), Ascii.eqb_refl. simpl. lia.
  - cbn [append rfind_from String.length]. rewrite IH by lia.
    destruct (Z.leb_spec 0 (i + 1 + Z.of_nat (String.length s1))); lia.
Qed.

Lemma substring_prefix (a b : string) :
  substring 0 (String.length a) (a ++ b) = a.
Proof.
  induction a as [|c a IH]; simpl.
  - now destruct b.
  - now rewrite IH.
Qed.

Lemma substring_at (a : string) (c : ascii) (rest : string) :
  substring (String.length a) 1 (a ++ String c rest) = String c "".
Proof.
  induction a as [|c' a IH]; simpl; [now destruct rest | exact IH].
Qed.

(** The batch name of [<stem>.<ext>], for a stem without a path separator
    which has a character other than a dot, and an extension without a dot
    and without a separator, is the stem. *)
Lemma splitext_stem (stem ext : string) (k : nat) (c : ascii) :
  contains_char "/" stem = false -> contains_char "/" ext = false ->
  contains_char "." ext = false ->
  (k < String.length stem)%nat -> substring k 1 (stem ++ String "." ext) = String c "" ->
  c <> "."%char ->
  fst (splitext (stem ++ String "." ext)) = stem.
Proof.
  intros Hstem Hext Hdot Hk Hsub Hc. unfold splitext, rfind.
  rewrite (rfind_from_absent "/" (stem ++ String "." ext)).
  2:{ rewrite contains_char_app. simpl. now rewrite Hstem, Hext. }
  rewrite (rfind_from_last "." stem ext 0) by (lia || assumption).
  destruct (Z.ltb_spec (-1) (0 + Z.of_nat (String.length stem))); [|lia].
  replace (Z.to_nat (-1 + 1)) with 0%nat by lia.
  replace (Z.to_nat (0 + Z.of_nat (String.length stem) - -1 - 1))
    with (String.length stem) by lia.
  assert (Hex : existsb (fun k0 => negb (substring k0 1 (stem ++ String "." ext) =? ".")%string)
                  (seq 0 (String.length stem)) = true).
  { apply existsb_exists. exists k. split.
    - apply in_seq. lia.
    - rewrite Hsub. apply negb_true_iff. apply String.eqb_neq.
      intros [= ->]. now apply Hc. }
  rewrite Hex. unfold slice_to. cbn [fst].
  rewrite ?Z.add_0_l, Nat2Z.id.
  apply substring_prefix.
Qed.

(** The naming scheme read back: a file name [<start_time>_<tag>.<ext>]
    is cut into its start time and its tag. *)
Lemma parse_batch_file_name (start_time tag ext : string) :
  contains_char "_" start_time = false ->
  contains_char "/" start_time = false -> contains_char "/" tag = false ->
  contains_char "/" ext = false -> contains_char "." ext = false ->
  parse_batch_name (batch_name_of (batch_file_name start_time tag ext))
  = Some (start_time, tag).
Proof.
  intros Hus Hs Ht He Hd. unfold batch_file_name, batch_name_of.
  change (start_time ++ "_" ++ tag ++ "." ++ ext)
    with (start_time ++ String "_" (tag ++ String "." ext)).
  replace (start_time ++ String "_" (tag ++ String "." ext))
    with ((start_time ++ String "_" tag) ++ String "." ext)
    by (now rewrite string_app_assoc).
  rewrite (splitext_stem (start_time ++ String "_" tag) ext
             (String.length start_time) "_").
  - unfold parse_batch_name. now rewrite split_once_app.
  - rewrite contains_char_app. simpl. now rewrite Hs, Ht.
  - exact He.
  - exact Hd.
  - rewrite length_app. simpl. lia.
  - rewrite string_app_assoc. apply substring_at.
  - discriminate.
Qed.

Lemma discovered_start_times_in (tag : string) (names : list string) (k : string) :
  In k (discovered_start_times tag names)
  <-> exists f, In f names
                /\ parse_batch_name (batch_name_of f) = Some (k, tag).
Proof.
  unfold discovered_start_times. rewrite in_flat_map. split.
  - intros (f & Hf & Hk). exists f. split; [assumption|].
    destruct (parse_batch_name (batch_name_of f)) as [[st tg]|]; [|destruct Hk].
    destruct (String.eqb_spec tg tag) as [Heq|]; [|destruct Hk].
    destruct Hk as [Hk|[]]. now subst.
  - intros (f & Hf & Hp). exists f. split; [assumption|].
    rewrite Hp, String.eqb_refl. now left.
Qed.

Lemma update_loop_ok_inv (tag : string) (names : list string) (m : odict Batch) :
  snd (update_loop tag names m) = Ok tt ->
  forall f, In f names -> contains_char "_" (batch_name_of f) = true.
Proof.
  intros Hok f Hf.
  destruct (contains_char "_" (batch_name_of f)) eqn:Hc; [reflexivity|].
  rewrite (update_loop_fail tag names) in Hok; [discriminate | now exists f].
Qed.

Lemma update_loop_app (tag : string) (good rest : list string) :
  (forall f, In f good -> contains_char "_" (batch_name_of f) = true) ->
  forall m, update_loop tag (good ++ rest) m
            = update_loop tag rest (fst (update_loop tag good m)).
Proof.
  induction good as [|f good IH]; intros Hgood m; simpl; [reflexivity|].
  destruct (split_once_shape "_" (batch_name_of f)) as [[Hc _]|[_ (x & y & Hs)]].
  - rewrite (Hgood f (or_introl eq_refl)) in Hc. discriminate.
  - unfold batch_name_of in Hs. rewrite Hs. simpl.
    destruct (y =? tag)%string; apply IH; intros g Hg; apply Hgood; now right.
Qed.

Lemma update_loop_filter (tag : string) (names : list string) :
  (forall f, In f names -> contains_char "_" (batch_name_of f) = true) ->
  forall m, update_loop tag (filter (has_tag tag) names) m
            = update_loop tag names m.
Proof.
  induction names as [|f names IH]; intros Hall m; [reflexivity|].
  assert (Hrest : forall g, In g names ->
                            contains_char "_" (batch_name_of g) = true).
  { intros g Hg. apply Hall. now right. }
  destruct (split_once_shape "_" (batch_name_of f)) as [[Hc _]|[_ (x & y & Hs)]].
  - rewrite (Hall f (or_introl eq_refl)) in Hc. discriminate.
  - cbn [filter]. unfold has_tag, parse_batch_name. rewrite Hs.
    unfold batch_name_of in Hs.
    destruct (y =? tag)%string eqn:Hy.
    + cbn [update_loop]. rewrite Hs. cbn [unpack2]. rewrite Hy. now apply IH.
    + cbn [update_loop]. rewrite Hs. cbn [unpack2]. rewrite Hy. now apply IH.
Qed.

Lemma strictly_increasing_unique (l1 l2 : list string) :
  strictly_increasing l1 -> strictly_increasing l2 ->
  (forall k, In k l1 <-> In k l2) -> l1 = l2.
Proof.
  unfold strictly_increasing. intros H1. revert l2.
  induction H1 as [|x1 l1 Hs1 IH Hall1]; intros l2 H2 Hsame.
  - destruct l2 as [|x2 l2]; [reflexivity|].
    exfalso. apply (proj2 (Hsame x2)). now left.
  - destruct H2 as [|x2 l2 Hs2 Hall2].
    + exfalso. apply (proj1 (Hsame x1)). now left.
    + rewrite Forall_forall in Hall1, Hall2.
      assert (Heq : x1 = x2).
      { destruct (string_dec x1 x2) as [|Hne]; [assumption|]. exfalso.
        assert (H12 : (x2 <? x1)%string = true).
        { apply Hall2. destruct (proj1 (Hsame x1) (or_introl eq_refl));
            [congruence | assumption]. }
        assert (H21 : (x1 <? x2)%string = true).
        { apply Hall1. destruct (proj2 (Hsame x2) (or_introl eq_refl));
            [congruence | assumption]. }
        pose proof (ltb_trans _ _ _ H12 H21) as Habs.
        now rewrite ltb_irrefl in Habs. }
      subst x2. f_equal. apply IH; [assumption|].
      intros k. split; intros Hk.
      * destruct (proj1 (Hsame k) (or_intror Hk)) as [<-|]; [|assumption].
        specialize (Hall1 _ Hk). now rewrite ltb_irrefl in Hall1.
      * destruct (proj2 (Hsame k) (or_intror Hk)) as [<-|]; [|assumption].
        specialize (Hall2 _ Hk). now rewrite ltb_irrefl in Hall2.
Qed.

Section RescanMore.

Context {E : Environ} {L : SpectrogramLib}.

Lemma update_start_times_in (fs : FileSystem) (self self' : Batches)
  (dir : string) (k : string) :
  update fs self = (self', Ok tt) ->
  batches_dir_path self = Ok dir ->
  (In k (start_times self')
   <-> In k (discovered_start_times (_tag self) (walk_files fs dir))).
Proof.
  intros Hup Hdir.
  destruct (update_ok_inv fs self self' Hup) as (dir' & m & Hdir' & Hloop & ->).
  rewrite Hdir in Hdir'. inversion Hdir'; subst dir'.
  unfold start_times. simpl. rewrite keys_sorted_items, sorted_strs_in.
  pose proof (update_loop_keys_in (_tag self) (walk_files fs dir) k []) as H.
  rewrite Hloop in H. simpl in H. specialize (H eq_refl). tauto.
Qed.

Lemma update_lookup (fs : FileSystem) (self self' : Batches) (k : string) :
  update fs self = (self', Ok tt) ->
  In k (start_times self') ->
  _get_from_start_time self' k = Ok (batch_cls k (_tag self)).
Proof.
  intros Hup Hin. unfold _get_from_start_time.
  destruct (lookup (_batch_map self') k) as [b|] eqn:Hl.
  - apply lookup_some_in in Hl.
    now rewrite (update_items fs self self' k b Hup Hl).
  - apply lookup_none in Hl. contradiction.
Qed.

(** X6. A file named [<start_time>_<tag>.<ext>] with the tag of the registry is
    found by a rescan which returns: its start time is then a key of the
    index, under which the batch of that start time and tag is stored. *)
Theorem update_discovers_batch_file (fs : FileSystem) (self self' : Batches)
  (dir start_time ext : string) :
  update fs self = (self', Ok tt) ->
  batches_dir_path self = Ok dir ->
  In (batch_file_name start_time (_tag self) ext) (walk_files fs dir) ->
  contains_char "_" start_time = false ->
  contains_char "/" start_time = false ->
  contains_char "/" (_tag self) = false ->
  contains_char "/" ext = false -> contains_char "." ext = false ->
  In start_time (start_times self')
  /\ _get_from_start_time self' start_time
     = Ok (batch_cls start_time (_tag self)).
Proof.
  intros Hup Hdir Hin Hus Hs Ht He Hd.
  assert (Hkey : In start_time (start_times self')).
  { apply (update_start_times_in fs self self' dir _ Hup Hdir).
    apply discovered_start_times_in.
    exists (batch_file_name start_time (_tag self) ext).
    split; [exact Hin | now apply parse_batch_file_name]. }
  split; [exact Hkey | now apply (update_lookup fs self self')].
Qed.

(** X7. The start times of a registry which a rescan has produced contain no
    underscore, the names being cut at their first one; so a lookup by a
    string with an underscore in it raises [BatchNotFoundError]. *)
Theorem start_times_without_underscore (fs : FileSystem) (self self' : Batches) :
  update fs self = (self', Ok tt) ->
  (forall k, In k (start_times self') -> contains_char "_" k = false)
  /\ (forall s, contains_char "_" s = true ->
                exists msg,
                  _get_from_start_time self' s = Raise (BatchNotFoundError msg)).
Proof.
  intros Hup.
  destruct (update_ok_inv fs self self' Hup) as (dir & m & Hdir & _ & Hself).
  assert (Hkeys : forall k, In k (start_times self') ->
                            contains_char "_" k = false).
  { intros k Hk.
    apply (update_start_times_in fs self self' dir _ Hup Hdir) in Hk.
    apply discovered_start_times_in in Hk. destruct Hk as (f & _ & Hp).
    unfold parse_batch_name in Hp.
    destruct (split_once_shape "_" (batch_name_of f)) as [[_ Hs]|[_ (x & y & Hs)]];
      rewrite Hs in Hp; [discriminate|].
    inversion Hp; subst. now destruct (split_once_spec _ _ _ _ Hs). }
  split; [exact Hkeys|].
  intros s Hs.
  destruct (update_valid_scope fs self self' Hup) as (dir' & Hdir').
  eexists. unfold _get_from_start_time.
  destruct (lookup (_batch_map self') s) as [b|] eqn:Hl.
  - apply lookup_some_in in Hl.
    assert (Hin : In s (start_times self')).
    { unfold start_times, keys. change s with (fst (s, b)). now apply in_map. }
    rewrite (Hkeys s Hin) in Hs. discriminate.
  - rewrite Hdir'. reflexivity.
Qed.

(** X8. The index does not depend on the order in which the walk yields the
    files: a rescan of the same files in another order returns the same
    registry. *)
Theorem update_independent_of_walk_order (fs1 fs2 : FileSystem)
  (self self' : Batches) (dir : string) :
  batches_dir_path self = Ok dir ->
  Permutation (walk_files fs1 dir) (walk_files fs2 dir) ->
  update fs1 self = (self', Ok tt) ->
  update fs2 self = (self', Ok tt).
Proof.
  intros Hdir Hperm Hup1.
  assert (Hok1 : snd (update_loop (_tag self) (walk_files fs1 dir) []) = Ok tt).
  { rewrite <- (update_outcome fs1 self dir Hdir). now rewrite Hup1. }
  assert (Hok2 : snd (update_loop (_tag self) (walk_files fs2 dir) []) = Ok tt).
  { apply update_loop_ok. intros f Hf.
    apply (update_loop_ok_inv _ _ _ Hok1).
    apply (Permutation_in _ (Permutation_sym Hperm) Hf). }
  destruct (update fs2 self) as [self2 r2] eqn:Hup2.
  assert (Hr2 : r2 = Ok tt).
  { pose proof (update_outcome fs2 self dir Hdir) as H.
    rewrite Hup2 in H. simpl in H. now rewrite H. }
  subst r2. f_equal.
  destruct (update_index_sorted fs1 self self' Hup1) as (Hs1 & _).
  destruct (update_index_sorted fs2 self self2 Hup2) as (Hs2 & _).
  assert (Hkeys : start_times self2 = start_times self').
  { apply strictly_increasing_unique; try assumption.
    intros k.
    rewrite (update_start_times_in fs2 self self2 dir k Hup2 Hdir).
    rewrite (update_start_times_in fs1 self self' dir k Hup1 Hdir).
    rewrite !discovered_start_times_in.
    split; intros (f & Hf & Hp); exists f; (split; [|exact Hp]).
    - apply (Permutation_in _ (Permutation_sym Hperm) Hf).
    - apply (Permutation_in _ Hperm Hf). }
  pose proof (update_batch_map_shape fs1 self self' Hup1) as Hm1.
  pose proof (update_batch_map_shape fs2 self self2 Hup2) as Hm2.
  destruct (update_result_scope _ _ _ _ Hup1) as (Ht1 & Hy1 & Hmo1 & Hd1).
  destruct (update_result_scope _ _ _ _ Hup2) as (Ht2 & Hy2 & Hmo2 & Hd2).
  rewrite Hkeys, <- Hm1 in Hm2.
  destruct self' as [t1 y1 mo1 d1 m1], self2 as [t2 y2 mo2 d2 m2];
    simpl in *. congruence.
Qed.

(** X9. A registry does not see the files of other tags: without them a rescan
    which returns gives the same registry. *)
Theorem update_ignores_other_tags (fs1 fs2 : FileSystem) (self : Batches)
  (dir : string) :
  batches_dir_path self = Ok dir ->
  walk_files fs2 dir = filter (has_tag (_tag self)) (walk_files fs1 dir) ->
  snd (update fs1 self) = Ok tt ->
  update fs2 self = update fs1 self.
Proof.
  intros Hdir Hwalk Hok.
  rewrite (update_outcome fs1 self dir Hdir) in Hok.
  rewrite (update_unfold fs1 self dir Hdir), (update_unfold fs2 self dir Hdir).
  rewrite Hwalk, update_loop_filter; [reflexivity|].
  now apply (update_loop_ok_inv (_tag self) _ []).
Qed.

(** X10. A rescan which meets a file name without an underscore stops there: it
    raises, and the registry is left with the batches found before that
    file, in the order of their discovery and not sorted. *)
Theorem update_stops_at_foreign_file (fs : FileSystem) (self : Batches)
  (dir : string) (good : list string) (bad : string) (rest : list string) :
  batches_dir_path self = Ok dir ->
  walk_files fs dir = (good ++ bad :: rest)%list ->
  (forall f, In f good -> contains_char "_" (batch_name_of f) = true) ->
  contains_char "_" (batch_name_of bad) = false ->
  update fs self
  = (set_batch_map self (fst (update_loop (_tag self) good [])),
     Raise (ValueError "not enough values to unpack (expected 2, got 1)"))
  /\ (NoDup (discovered_start_times (_tag self) good) ->
      start_times (fst (update fs self))
      = discovered_start_times (_tag self) good).
Proof.
  intros Hdir Hwalk Hgood Hbad.
  assert (Hup : update fs self
                = (set_batch_map self (fst (update_loop (_tag self) good [])),
                   Raise (ValueError
                            "not enough values to unpack (expected 2, got 1)"))).
  { rewrite (update_unfold fs self dir Hdir), Hwalk.
    rewrite (update_loop_app _ _ _ Hgood). cbn [update_loop].
    pose proof (split_once_without "_" _ Hbad) as Hs.
    unfold batch_name_of in Hs. rewrite Hs. reflexivity. }
  split; [exact Hup|].
  intros Hnd. rewrite Hup. unfold start_times. simpl.
  rewrite update_loop_keys; [reflexivity | | exact Hnd].
  now apply update_loop_ok.
Qed.

End RescanMore.

(* ================================================================== *)
(** * Further properties of the directories                            *)
(* ================================================================== *)

Lemma join_single (path x : string) :
  startswith x "/" = false -> join path [x] = join_prefix path ++ x.
Proof.
  intros Hx. unfold join_prefix. cbn [join]. rewrite Hx. cbn [orb].
  destruct (path =? "")%string; [reflexivity|].
  destruct (endswith_char path "/"); [reflexivity|].
  now rewrite string_app_assoc.
Qed.

Lemma join_single_shape (path x : string) :
  x <> "" -> contains_char "/" x = false ->
  join path [x] <> "" /\ endswith_char (join path [x]) "/" = false.
Proof.
  intros Hne Hc. rewrite join_single by now apply startswith_sep.
  split; [now apply app_nonempty_r | now apply endswith_char_app].
Qed.

Lemma prefix_app (a b : string) : prefix a (a ++ b) = true.
Proof. apply prefix_correct. apply substring_prefix. Qed.

Lemma join_prefix_extends (path : string) : exists t, join_prefix path = path ++ t.
Proof.
  unfold join_prefix. destruct (String.eqb_spec path "") as [->|_].
  - now exists "".
  - destruct (endswith_char path "/").
    + exists "". now rewrite string_app_nil_r.
    + now exists "/".
Qed.

Lemma string_app_inv_head (p a b : string) : p ++ a = p ++ b -> a = b.
Proof. induction p as [|c p IH]; simpl; [auto|]. intros [= H]. auto. Qed.

Section DirectoryTrees.

Context {E : Environ}.

Lemma get_logs_dir_path_ok (year month day : option Z) :
  date_dependency (truthy year) (truthy month) (truthy day) = true ->
  get_logs_dir_path year month day
  = Ok (_LOGS_DIR_PATH ++ date_suffix year month day).
Proof.
  intros Hok. unfold get_logs_dir_path.
  rewrite (date_based_dir_path_ok _ _ _ _ Hok).
  destruct (join_single_shape _SPECTRE_DATA_DIR_PATH "logs") as (Hne & Hend);
    [discriminate | reflexivity |].
  unfold _LOGS_DIR_PATH. now rewrite join_date_components.
Qed.

Lemma date_dependency_of_ok (base : string) (year month day : option Z) (p : string) :
  _get_date_based_dir_path base year month day = Ok p ->
  date_dependency (truthy year) (truthy month) (truthy day) = true.
Proof.
  intros Hp.
  destruct (date_dependency (truthy year) (truthy month) (truthy day)) eqn:Hd;
    [reflexivity|].
  destruct (date_based_dir_path_invalid _ _ _ Hd) as (msg & Hmsg).
  rewrite Hmsg in Hp. discriminate.
Qed.

(** X11. The logs directory is partitioned by date like the batches directory:
    the path construction succeeds exactly when the dependency of the date
    components holds, raises a [ValueError] otherwise, and appends the
    counted components to the logs root as [/YYYY/MM/DD]. *)
Theorem logs_dir_path_layout (year month day : option Z) :
  let counted := date_dependency (truthy year) (truthy month) (truthy day) in
  is_ok (get_logs_dir_path year month day) = counted
  /\ (counted = true ->
      get_logs_dir_path year month day
      = Ok (_LOGS_DIR_PATH ++ date_suffix year month day))
  /\ (counted = false ->
      exists msg, get_logs_dir_path year month day = Raise (ValueError msg)).
Proof.
  intros counted. subst counted. split; [|split].
  - destruct (date_dependency _ _ _) eqn:Hd.
    + now rewrite (get_logs_dir_path_ok _ _ _ Hd).
    + destruct (date_based_dir_path_invalid _ _ _ Hd) as (msg & Hmsg).
      unfold get_logs_dir_path. now rewrite Hmsg.
  - apply get_logs_dir_path_ok.
  - intros Hd. destruct (date_based_dir_path_invalid _ _ _ Hd) as (msg & Hmsg).
    exists msg. apply Hmsg.
Qed.

(** X12. Whatever the environment and the dates, the directories stay inside the
    data directory and apart from each other: every batches directory and
    every logs directory begins with the data directory path, no batches
    directory is a logs directory, and neither is the configs directory. *)
Theorem directory_trees_disjoint
  (year month day year' month' day' : option Z) (p q : string) :
  get_batches_dir_path year month day = Ok p ->
  get_logs_dir_path year' month' day' = Ok q ->
  prefix _SPECTRE_DATA_DIR_PATH p = true
  /\ prefix _SPECTRE_DATA_DIR_PATH q = true
  /\ prefix _SPECTRE_DATA_DIR_PATH _CONFIGS_DIR_PATH = true
  /\ p <> q /\ p <> _CONFIGS_DIR_PATH /\ q <> _CONFIGS_DIR_PATH.
Proof.
  intros Hp Hq.
  pose proof (date_dependency_of_ok _ _ _ _ _ Hp) as Hdp.
  pose proof (date_dependency_of_ok _ _ _ _ _ Hq) as Hdq.
  rewrite (get_batches_dir_path_ok _ _ _ Hdp) in Hp.
  rewrite (get_logs_dir_path_ok _ _ _ Hdq) in Hq.
  inversion Hp; subst p. inversion Hq; subst q. clear Hp Hq.
  unfold _BATCHES_DIR_PATH, _LOGS_DIR_PATH, _CONFIGS_DIR_PATH.
  rewrite !join_single by reflexivity.
  destruct (join_prefix_extends _SPECTRE_DATA_DIR_PATH) as (t & Ht).
  rewrite !string_app_assoc.
  repeat split.
  - rewrite Ht, string_app_assoc. apply prefix_app.
  - rewrite Ht, string_app_assoc. apply prefix_app.
  - rewrite Ht, string_app_assoc. apply prefix_app.
  - intros H. apply string_app_inv_head in H. discriminate.
  - intros H. apply string_app_inv_head in H. discriminate.
  - intros H. apply string_app_inv_head in H. discriminate.
Qed.

End DirectoryTrees.

(* ================================================================== *)
(** * Further properties of range queries                              *)
(* ================================================================== *)

Lemma mapM_length {A B : Type} (f : A -> result B) (l : list A) (ys : list B) :
  mapM f l = Ok ys -> List.length ys = List.length l.
Proof.
  revert ys. induction l as [|x l IH]; intros ys; simpl.
  - intros [= <-]. reflexivity.
  - destruct (f x) as [y|e]; simpl; [|discriminate].
    destruct (mapM f l) as [ys'|e]; simpl; [|discriminate].
    intros [= <-]. simpl. now rewrite (IH ys').
Qed.

Lemma mapM_in {A B : Type} (f : A -> result B) (l : list A) (ys : list B) (x : A) :
  mapM f l = Ok ys -> In x l -> exists y, f x = Ok y /\ In y ys.
Proof.
  revert ys. induction l as [|a l IH]; intros ys; simpl; [tauto|].
  destruct (f a) as [y|e] eqn:Hfa; simpl; [|discriminate].
  destruct (mapM f l) as [ys'|e]; simpl; [|discriminate].
  intros [= <-] [<-|Hin].
  - exists y. split; [assumption | now left].
  - destruct (IH ys' eq_refl Hin) as (y' & Hy' & Hin'). exists y'.
    split; [assumption | now right].
Qed.

Lemma increasing_last (l : list Z) (d t : Z) :
  StronglySorted Z.le l -> In t l -> t <= last l d.
Proof.
  revert t. induction l as [|x l IH]; intros t Hs Hin; [destruct Hin|].
  inversion Hs as [|? ? Hs' Hall]; subst.
  destruct l as [|y l].
  - destruct Hin as [<-|[]]. simpl. lia.
  - change (last (x :: y :: l) d) with (last (y :: l) d).
    destruct Hin as [<-|Hin].
    + rewrite Forall_forall in Hall.
      specialize (Hall y (or_introl eq_refl)).
      specialize (IH y Hs' (or_introl eq_refl)). lia.
    + now apply IH.
Qed.

Section RangeQueriesMore.

Context {L : SpectrogramLib}.

Lemma range_loop_pieces (fs : FileSystem) (start_time end_time : string)
  (start_datetime end_datetime : Z) (batches : list Batch) :
  nonempty_time_axes fs batches ->
  range_loop fs start_time end_time start_datetime end_datetime batches []
  = mapM (fun s => time_chop s start_time end_time)
      (overlapping fs start_datetime end_datetime batches).
Proof.
  intros Hne. rewrite (range_loop_spec _ _ _ _ _ _ Hne).
  now destruct (mapM _ _).
Qed.

Lemma time_range_increasing (s : Spectrogram) (t : Z) :
  increasing_time_axis (datetimes s) -> In t (datetimes s) ->
  exists first last,
    time_range s = Some (first, last) /\ first <= t <= last.
Proof.
  unfold time_range, increasing_time_axis.
  destruct (datetimes s) as [|first rest]; intros Hs Hin; [destruct Hin|].
  exists first, (last rest first). split; [reflexivity|]. split.
  - inversion Hs as [|? ? _ Hall]; subst. destruct Hin as [<-|Hin]; [lia|].
    rewrite Forall_forall in Hall. now apply Hall.
  - rewrite <- (last_cons_default first rest 0). now apply increasing_last.
Qed.

Lemma contribution_length_le (fs : FileSystem)
  (start1 end1 start2 end2 : Z) (batch : Batch) :
  start2 <= start1 -> end1 <= end2 ->
  (List.length (contribution fs start1 end1 batch)
   <= List.length (contribution fs start2 end2 batch))%nat.
Proof.
  intros Hs He. unfold contribution, overlaps.
  destruct (spectrogram_file fs batch) as [s|]; [|apply Nat.le_refl].
  destruct (time_range s) as [[first last]|]; [|apply Nat.le_refl]. simpl.
  destruct (Z.leb_spec start1 last), (Z.leb_spec first end1),
    (Z.leb_spec start2 last), (Z.leb_spec first end2); simpl; lia.
Qed.

Lemma overlapping_length_le (fs : FileSystem)
  (start1 end1 start2 end2 : Z) (batches : list Batch) :
  start2 <= start1 -> end1 <= end2 ->
  (List.length (overlapping fs start1 end1 batches)
   <= List.length (overlapping fs start2 end2 batches))%nat.
Proof.
  intros Hs He. unfold overlapping.
  induction batches as [|b rest IH]; simpl; [apply Nat.le_refl|].
  rewrite !List.length_app.
  pose proof (contribution_length_le fs start1 end1 start2 end2 b Hs He). lia.
Qed.

(** X13. Widening the window never loses a batch: when the loops of two range
    queries complete, the one over the wider window collects at least as
    many spectrograms. *)
Theorem wider_window_collects_more (fs : FileSystem) (batches : list Batch)
  (start_time1 end_time1 start_time2 end_time2 : string)
  (start1 end1 start2 end2 : Z) (pieces1 pieces2 : list Spectrogram) :
  nonempty_time_axes fs batches ->
  start2 <= start1 -> end1 <= end2 ->
  range_loop fs start_time1 end_time1 start1 end1 batches [] = Ok pieces1 ->
  range_loop fs start_time2 end_time2 start2 end2 batches [] = Ok pieces2 ->
  (List.length pieces1 <= List.length pieces2)%nat.
Proof.
  intros Hne Hs He H1 H2.
  rewrite (range_loop_pieces _ _ _ _ _ _ Hne) in H1.
  rewrite (range_loop_pieces _ _ _ _ _ _ Hne) in H2.
  rewrite (mapM_length _ _ _ H1), (mapM_length _ _ _ H2).
  now apply overlapping_length_le.
Qed.

(** X14. No data inside the window is missed: when the loop of a range query
    completes, a batch whose increasing time axis has a timestamp within
    the window has its clipped spectrogram among the collected ones. *)
Theorem batch_inside_window_collected (fs : FileSystem) (batches : list Batch)
  (start_time end_time : string) (start_datetime end_datetime : Z)
  (pieces : list Spectrogram) (batch : Batch) (s : Spectrogram) (t : Z) :
  nonempty_time_axes fs batches ->
  range_loop fs start_time end_time start_datetime end_datetime batches []
  = Ok pieces ->
  In batch batches -> spectrogram_file fs batch = Some s ->
  increasing_time_axis (datetimes s) -> In t (datetimes s) ->
  start_datetime <= t <= end_datetime ->
  exists chopped,
    time_chop s start_time end_time = Ok chopped /\ In chopped pieces.
Proof.
  intros Hne Hloop Hb Hfile Hinc Ht Hwin.
  rewrite (range_loop_pieces _ _ _ _ _ _ Hne) in Hloop.
  apply (mapM_in _ _ _ s Hloop).
  unfold overlapping. apply in_flat_map. exists batch. split; [exact Hb|].
  destruct (time_range_increasing s t Hinc Ht) as (first & last & Hr & Hbounds).
  destruct (contribution_iff fs start_datetime end_datetime batch s first last
              Hfile Hr) as (Hin & _).
  rewrite Hin by lia. now left.
Qed.

(** X15. A range query reaches the join as soon as one batch overlaps: when the
    loop completes and a batch with an existing spectrogram file passes the
    overlap test, the query returns what [join_spectrograms] makes of the
    collected, non-empty list, and does not raise its own
    [SpectrogramNotFoundError]. *)
Theorem range_query_found (fs : FileSystem) (self : Batches)
  (start_time end_time : string) (start_datetime end_datetime : Z)
  (pieces : list Spectrogram) (batch : Batch) (s : Spectrogram)
  (first last : Z) :
  strptime start_time = Ok start_datetime ->
  strptime end_time = Ok end_datetime ->
  nonempty_time_axes fs (batch_list self) ->
  range_loop fs start_time end_time start_datetime end_datetime
    (__iter__ self) [] = Ok pieces ->
  In batch (batch_list self) -> spectrogram_file fs batch = Some s ->
  time_range s = Some (first, last) ->
  start_datetime <= last -> first <= end_datetime ->
  pieces <> []
  /\ get_spectrogram_from_range fs self start_time end_time
     = join_spectrograms pieces.
Proof.
  intros Hs He Hne Hloop Hb Hfile Hr Hlo Hhi.
  assert (Hpieces : pieces <> []).
  { unfold __iter__ in Hloop.
    rewrite (range_loop_pieces _ _ _ _ _ _ Hne) in Hloop.
    destruct (mapM_in _ _ _ s Hloop) as (c & _ & Hc).
    - unfold overlapping. apply in_flat_map. exists batch. split; [exact Hb|].
      destruct (contribution_iff fs start_datetime end_datetime batch s first
                  last Hfile Hr) as (Hin & _).
      rewrite Hin by lia. now left.
    - intros ->. destruct Hc. }
  split; [exact Hpieces|].
  unfold get_spectrogram_from_range. rewrite Hs, He. simpl. rewrite Hloop.
  simpl. destruct pieces; [contradiction | reflexivity].
Qed.

End RangeQueriesMore.

(* ================================================================== *)
(** * The further properties at work                                   *)
(* ================================================================== *)

Lemma demo_init_registry :
  @__init__ Demo.environ Demo.lib Demo.fs "obs" None None None
  = (Demo.registry, Ok tt).
Proof. vm_compute. reflexivity. Qed.

Lemma init_registry_shape_witness :
  @__init__ Demo.environ Demo.lib Demo.fs "obs" None None None
  = (Demo.registry, Ok tt)
  /\ __iter__ Demo.registry
     = map (fun k => batch_cls k "obs") (start_times Demo.registry)
  /\ __len__ Demo.registry = Z.of_nat (List.length (start_times Demo.registry)).
Proof.
  split; [exact demo_init_registry|].
  destruct (@init_registry_shape Demo.environ Demo.lib Demo.fs "obs"
              None None None Demo.registry demo_init_registry)
    as (_ & _ & _ & _ & Hiter & Hlen).
  split; [exact Hiter | exact Hlen].
Defined.

Lemma set_date_invalid_state_witness :
  date_dependency (truthy (Some 2024)) (truthy None) (truthy (Some 7)) = false
  /\ exists msg,
       @set_date Demo.environ Demo.lib Demo.fs Demo.registry
         (Some 2024) None (Some 7)
       = ({| _tag := "obs"; _year := Some 2024; _month := None;
             _day := Some 7; _batch_map := [] |}, Raise (ValueError msg))
       /\ _get_from_index
            (fst (@set_date Demo.environ Demo.lib Demo.fs Demo.registry
                    (Some 2024) None (Some 7))) 0
          = Raise (BatchNotFoundError "No batches are available")
       /\ @_get_from_start_time Demo.environ
            (fst (@set_date Demo.environ Demo.lib Demo.fs Demo.registry
                    (Some 2024) None (Some 7))) Demo.t1
          = Raise (ValueError msg).
Proof.
  split; [reflexivity|].
  destruct (@set_date_invalid_state Demo.environ Demo.lib Demo.fs Demo.registry
              (Some 2024) None (Some 7) eq_refl) as (msg & Hset & Hidx & Hkey).
  exists msg. split; [exact Hset|]. split; [apply Hidx | apply Hkey].
Defined.

Lemma index_order_is_start_time_order_witness :
  @update Demo.environ Demo.lib Demo.fs Demo.blank = (Demo.registry, Ok tt)
  /\ 2 < num_batches Demo.registry
  /\ exists bi bj,
       _get_from_index Demo.registry 0 = Ok bi
       /\ _get_from_index Demo.registry 2 = Ok bj
       /\ (b_start_time bi <? b_start_time bj)%string = true.
Proof.
  split; [exact demo_registry_update|].
  split; [vm_compute; reflexivity|].
  apply (@index_order_is_start_time_order Demo.environ Demo.lib Demo.fs
           Demo.blank Demo.registry 0 2 demo_registry_update).
  - lia.
  - lia.
  - vm_compute. reflexivity.
Defined.

Lemma index_and_start_time_lookups_agree_witness :
  0 <= 1 < num_batches Demo.registry
  /\ exists batch,
       @__getitem__ Demo.environ Demo.registry (SubInt 1) = Ok batch
       /\ @__getitem__ Demo.environ Demo.registry (SubStr (b_start_time batch))
          = Ok batch
       /\ b_tag batch = _tag Demo.registry.
Proof.
  assert (Hi : 0 <= 1 < num_batches Demo.registry)
    by (vm_compute; split; congruence).
  split; [exact Hi|].
  exact (@index_and_start_time_lookups_agree Demo.environ Demo.lib Demo.fs
           Demo.blank Demo.registry 1 demo_registry_update Hi).
Defined.

Lemma update_discovers_batch_file_witness :
  In (batch_file_name Demo.t1 "obs" "fits")
     (@walk_files Demo.lib Demo.fs "/data/batches")
  /\ In Demo.t1 (start_times Demo.registry)
  /\ @_get_from_start_time Demo.environ Demo.registry Demo.t1
     = Ok (batch_cls Demo.t1 "obs").
Proof.
  assert (Hin : In (batch_file_name Demo.t1 "obs" "fits")
                   (@walk_files Demo.lib Demo.fs "/data/batches")).
  { vm_compute. right. right. left. reflexivity. }
  split; [exact Hin|].
  exact (@update_discovers_batch_file Demo.environ Demo.lib Demo.fs Demo.blank
           Demo.registry "/data/batches" Demo.t1 "fits"
           demo_registry_update eq_refl Hin eq_refl eq_refl eq_refl eq_refl
           eq_refl).
Defined.

Lemma start_times_without_underscore_witness :
  contains_char "_" "2024-01-01T00:00:00_obs" = true
  /\ (forall k, In k (start_times Demo.registry) -> contains_char "_" k = false)
  /\ exists msg,
       @_get_from_start_time Demo.environ Demo.registry "2024-01-01T00:00:00_obs"
       = Raise (BatchNotFoundError msg).
Proof.
  split; [reflexivity|].
  destruct (@start_times_without_underscore Demo.environ Demo.lib Demo.fs
              Demo.blank Demo.registry demo_registry_update) as (Hkeys & Hmiss).
  split; [exact Hkeys | exact (Hmiss "2024-01-01T00:00:00_obs" eq_refl)].
Defined.

Lemma update_independent_of_walk_order_witness :
  Permutation (@walk_files Demo.lib Demo.fs_distinct "/data/batches")
              (@walk_files Demo.lib DemoMore.fs_reordered "/data/batches")
  /\ @update Demo.environ Demo.lib Demo.fs_distinct Demo.blank
     = (Demo.registry, Ok tt)
  /\ @update Demo.environ Demo.lib DemoMore.fs_reordered Demo.blank
     = (Demo.registry, Ok tt).
Proof.
  assert (Hperm : Permutation
                    (@walk_files Demo.lib Demo.fs_distinct "/data/batches")
                    (@walk_files Demo.lib DemoMore.fs_reordered "/data/batches")).
  { vm_compute. apply perm_swap. }
  assert (Hup : @update Demo.environ Demo.lib Demo.fs_distinct Demo.blank
                = (Demo.registry, Ok tt)) by (vm_compute; reflexivity).
  split; [exact Hperm|]. split; [exact Hup|].
  exact (@update_independent_of_walk_order Demo.environ Demo.lib
           Demo.fs_distinct DemoMore.fs_reordered Demo.blank Demo.registry
           "/data/batches" eq_refl Hperm Hup).
Defined.

Lemma update_ignores_other_tags_witness :
  @walk_files Demo.lib DemoMore.fs_obs_only "/data/batches"
  = filter (has_tag "obs") (@walk_files Demo.lib Demo.fs "/data/batches")
  /\ snd (@update Demo.environ Demo.lib Demo.fs Demo.blank) = Ok tt
  /\ @update Demo.environ Demo.lib DemoMore.fs_obs_only Demo.blank
     = @update Demo.environ Demo.lib Demo.fs Demo.blank.
Proof.
  assert (Hwalk : @walk_files Demo.lib DemoMore.fs_obs_only "/data/batches"
                  = filter (has_tag "obs")
                      (@walk_files Demo.lib Demo.fs "/data/batches"))
    by (vm_compute; reflexivity).
  assert (Hok : snd (@update Demo.environ Demo.lib Demo.fs Demo.blank) = Ok tt)
    by (vm_compute; reflexivity).
  split; [exact Hwalk|]. split; [exact Hok|].
  exact (@update_ignores_other_tags Demo.environ Demo.lib Demo.fs
           DemoMore.fs_obs_only Demo.blank "/data/batches" eq_refl Hwalk Hok).
Defined.

Lemma update_stops_at_foreign_file_witness :
  @walk_files Demo.lib Demo.fs_foreign "/data/batches"
  = List.app [Demo.t1 ++ "_obs.fits"] ("README.md" :: [Demo.t2 ++ "_obs.fits"])
  /\ contains_char "_" (batch_name_of "README.md") = false
  /\ @update Demo.environ Demo.lib Demo.fs_foreign Demo.blank
     = (set_batch_map Demo.blank
          (fst (update_loop "obs" [Demo.t1 ++ "_obs.fits"] [])),
        Raise (ValueError "not enough values to unpack (expected 2, got 1)"))
  /\ start_times (fst (@update Demo.environ Demo.lib Demo.fs_foreign Demo.blank))
     = [Demo.t1].
Proof.
  assert (Hwalk : @walk_files Demo.lib Demo.fs_foreign "/data/batches"
                  = List.app [Demo.t1 ++ "_obs.fits"]
                      ("README.md" :: [Demo.t2 ++ "_obs.fits"]))
    by (vm_compute; reflexivity).
  split; [exact Hwalk|]. split; [reflexivity|].
  destruct (@update_stops_at_foreign_file Demo.environ Demo.lib Demo.fs_foreign
              Demo.blank "/data/batches" [Demo.t1 ++ "_obs.fits"] "README.md"
              [Demo.t2 ++ "_obs.fits"] eq_refl Hwalk) as (Hup & Hkeys).
  - intros f [<-|[]]. vm_compute. reflexivity.
  - reflexivity.
  - split; [exact Hup|]. apply Hkeys.
    vm_compute. repeat constructor. simpl. tauto.
Defined.

Lemma logs_dir_path_layout_witness :
  date_dependency (truthy (Some 2024)) (truthy (Some 3)) (truthy None) = true
  /\ @get_logs_dir_path Demo.environ (Some 2024) (Some 3) None
     = Ok "/data/logs/2024/03"
  /\ date_dependency (truthy None) (truthy (Some 3)) (truthy None) = false
  /\ exists msg,
       @get_logs_dir_path Demo.environ None (Some 3) None
       = Raise (ValueError msg).
Proof.
  split; [reflexivity|].
  destruct (@logs_dir_path_layout Demo.environ (Some 2024) (Some 3) None)
    as (_ & Hgood & _).
  split; [exact (Hgood eq_refl)|].
  split; [reflexivity|].
  destruct (@logs_dir_path_layout Demo.environ None (Some 3) None)
    as (_ & _ & Hbad).
  exact (Hbad eq_refl).
Defined.

Lemma directory_trees_disjoint_witness :
  @get_batches_dir_path Demo.environ (Some 2024) None None
  = Ok "/data/batches/2024"
  /\ @get_logs_dir_path Demo.environ None None None = Ok "/data/logs"
  /\ prefix "/data" "/data/batches/2024" = true
  /\ "/data/batches/2024" <> "/data/logs"
  /\ "/data/batches/2024" <> @_CONFIGS_DIR_PATH Demo.environ.
Proof.
  split; [reflexivity|]. split; [reflexivity|].
  destruct (@directory_trees_disjoint Demo.environ (Some 2024) None None
              None None None "/data/batches/2024" "/data/logs"
              eq_refl eq_refl) as (Hp & _ & _ & Hpq & Hpc & _).
  split; [exact Hp|]. split; [exact Hpq | exact Hpc].
Defined.

Lemma wider_window_collects_more_witness :
  @range_loop Demo.lib Demo.fs "2024-01-01T00:00:06" "2024-01-01T00:00:19"
    20240101000006 20240101000019 (batch_list Demo.registry) [] = Ok []
  /\ @range_loop Demo.lib Demo.fs Demo.t1 Demo.t3
       20240101000000 20240101000020 (batch_list Demo.registry) []
     = Ok [[20240101000000; 20240101000005]; [20240101000020]]
  /\ (List.length (@nil (list Z))
      <= List.length [[20240101000000; 20240101000005]%Z; [20240101000020]%Z])%nat.
Proof.
  assert (H1 : @range_loop Demo.lib Demo.fs "2024-01-01T00:00:06"
                 "2024-01-01T00:00:19" 20240101000006 20240101000019
                 (batch_list Demo.registry) [] = Ok [])
    by (vm_compute; reflexivity).
  assert (H2 : @range_loop Demo.lib Demo.fs Demo.t1 Demo.t3
                 20240101000000 20240101000020 (batch_list Demo.registry) []
               = Ok [[20240101000000; 20240101000005]; [20240101000020]])
    by (vm_compute; reflexivity).
  split; [exact H1|]. split; [exact H2|].
  apply (@wider_window_collects_more Demo.lib Demo.fs (batch_list Demo.registry)
           "2024-01-01T00:00:06" "2024-01-01T00:00:19" Demo.t1 Demo.t3
           20240101000006 20240101000019 20240101000000 20240101000020
           [] [[20240101000000; 20240101000005]; [20240101000020]]
           demo_nonempty_time_axes); [lia | lia | exact H1 | exact H2].
Defined.

Lemma batch_inside_window_collected_witness :
  @range_loop Demo.lib Demo.fs "2024-01-01T00:00:03" "2024-01-01T00:00:10"
    20240101000003 20240101000010 (batch_list Demo.registry) []
  = Ok [[20240101000005]]
  /\ increasing_time_axis [20240101000000; 20240101000005]
  /\ exists chopped,
       @time_chop Demo.lib [20240101000000; 20240101000005]
         "2024-01-01T00:00:03" "2024-01-01T00:00:10" = Ok chopped
       /\ In chopped [[20240101000005]].
Proof.
  assert (Hloop : @range_loop Demo.lib Demo.fs "2024-01-01T00:00:03"
                    "2024-01-01T00:00:10" 20240101000003 20240101000010
                    (batch_list Demo.registry) [] = Ok [[20240101000005]])
    by (vm_compute; reflexivity).
  assert (Hinc : increasing_time_axis [20240101000000; 20240101000005]).
  { repeat constructor. lia. }
  split; [exact Hloop|]. split; [exact Hinc|].
  apply (@batch_inside_window_collected Demo.lib Demo.fs
           (batch_list Demo.registry) "2024-01-01T00:00:03"
           "2024-01-01T00:00:10" 20240101000003 20240101000010
           [[20240101000005]] (batch_cls Demo.t1 "obs")
           [20240101000000; 20240101000005] 20240101000005
           demo_nonempty_time_axes Hloop).
  - rewrite demo_registry_batches. now left.
  - reflexivity.
  - exact Hinc.
  - right. left. reflexivity.
  - lia.
Defined.

Lemma range_query_found_witness :
  @range_loop Demo.lib Demo.fs Demo.t1 Demo.t3
    20240101000000 20240101000020 (__iter__ Demo.registry) []
  = Ok [[20240101000000; 20240101000005]; [20240101000020]]
  /\ @get_spectrogram_from_range Demo.lib Demo.fs Demo.registry Demo.t1 Demo.t3
     = @join_spectrograms Demo.lib
         [[20240101000000; 20240101000005]; [20240101000020]].
Proof.
  assert (Hloop : @range_loop Demo.lib Demo.fs Demo.t1 Demo.t3
                    20240101000000 20240101000020 (__iter__ Demo.registry) []
                  = Ok [[20240101000000; 20240101000005]; [20240101000020]])
    by (vm_compute; reflexivity).
  split; [exact Hloop|].
  destruct (@range_query_found Demo.lib Demo.fs Demo.registry Demo.t1 Demo.t3
              20240101000000 20240101000020
              [[20240101000000; 20240101000005]; [20240101000020]]
              (batch_cls Demo.t3 "obs") [20240101000020]
              20240101000020 20240101000020
              eq_refl eq_refl demo_nonempty_time_axes Hloop) as (_ & Hq).
  - rewrite demo_registry_batches. right. right. left. reflexivity.
  - reflexivity.
  - reflexivity.
  - lia.
  - lia.
  - exact Hq.
Defined.
